(** * mediasoup-go: the Consumer lifecycle controller (consumer.go)

    A shallow embedding of [consumer.go].  The [Consumer] struct is a record;
    every method and both notification handlers are small programs over it,
    written in a resumption monad [Prog] whose single operation is one atomic
    access to the shared struct.  The collaborators the file only talks to
    (the control channel, the payload channel, the two event emitters, the
    logger and the typed callback slots) are observed through the trace of
    [Effect]s a program leaves behind.

    Two semantics are given to a program: [exec] runs one call to completion
    on its own, and [run_schedule] interleaves a pool of calls one atomic
    access at a time, which is how goroutines sharing one [*Consumer] run.

    Listeners and callbacks are opaque: emitting an event or calling a
    registered callback is recorded, and what the application does in
    response is outside the model. *)

From Stdlib Require Import String Ascii NArith ZArith Bool List Lia.
From stdpp Require Import base tactics option list.

Import ListNotations.
Open Scope string_scope.
Open Scope list_scope.

(** ** Data types of consumer.go *)

(** Go's [error] interface: only the message is observed. *)
Definition error := string.

(** [ConsumerTraceEventType] and [ConsumerType] are string types. *)
Definition ConsumerTraceEventType := string.
Definition ConsumerTraceEventType_Rtp : ConsumerTraceEventType := "rtp".
Definition ConsumerTraceEventType_Keyframe : ConsumerTraceEventType := "keyframe".
Definition ConsumerTraceEventType_Nack : ConsumerTraceEventType := "nack".
Definition ConsumerTraceEventType_Pli : ConsumerTraceEventType := "pli".
Definition ConsumerTraceEventType_Fir : ConsumerTraceEventType := "fir".

Definition ConsumerType := string.
Definition ConsumerType_Simple : ConsumerType := "simple".
Definition ConsumerType_Simulcast : ConsumerType := "simulcast".
Definition ConsumerType_Svc : ConsumerType := "svc".
Definition ConsumerType_Pipe : ConsumerType := "pipe".

(** [ConsumerScore]: three [uint16] quantities, kept as [N]. *)
Record ConsumerScore := {
  Score : N;
  ProducerScore : N;
  ProducerScores : list N
}.

(** [ConsumerLayers]: two [uint8] indices. *)
Record ConsumerLayers := {
  SpatialLayer : N;
  TemporalLayer : N
}.

(** Modelled from the spec: [internalData] is declared outside consumer.go;
    the spec's ConsumerIdentity gives its four fields
    (consumerId, producerId, routerId, transportId). *)
Record internalData := {
  routerId : string;
  transportId : string;
  ConsumerId : string;                     (* the one field consumer.go reads *)
  producerId : string
}.

(** [ConsumerTraceEventData], over the type [H] of its [Info] field. *)
Record ConsumerTraceEventData (H : Type) := {
  Type_ : ConsumerTraceEventType;
  Timestamp : Z;                           (* int64 *)
  Direction : string;
  Info : H
}.

(** What consumer.go uses but does not define: the types it only stores,
    the worker's response with its two accessors (channel.go), and
    [encoding/json] at the three types the notification handlers decode. *)
Class Externals := {
  MediaKind : Type;
  RtpParameters : Type;
  RtpCapabilities : Type;
  Any : Type;               (* interface{} *)
  H : Type;                 (* map[string]interface{} *)
  ConsumerDump : Type;
  ConsumerStat : Type;
  workerResponse : Type;
  (* response.Err() *)
  Response_Err : workerResponse -> option error;
  (* response.Unmarshal(&result) for struct{Priority uint32}: the error, or
     the value left in result.Priority *)
  Response_Unmarshal_Priority : workerResponse -> error + N;
  (* response.Unmarshal(&consumer.preferredLayers): the error and the value
     the pointer holds afterwards, from the one it held before *)
  Response_Unmarshal_Layers :
    workerResponse -> option ConsumerLayers -> option error * option ConsumerLayers;
  Response_Unmarshal_Dump : workerResponse -> option error * option ConsumerDump;
  Response_Unmarshal_Stats : workerResponse -> option error * list ConsumerStat;
  (* json.Unmarshal(data, &v) with v a nil pointer: an error, or the pointer
     (nil for the JSON value null) *)
  json_Unmarshal_Score : list Byte.byte -> error + option ConsumerScore;
  json_Unmarshal_Layers : list Byte.byte -> error + option ConsumerLayers;
  json_Unmarshal_Trace : list Byte.byte -> error + option (ConsumerTraceEventData H)
}.

Declare Scope prog_scope.
Delimit Scope prog_scope with prog.

Section ConsumerModel.
Context `{Ext : Externals}.

Record consumerData := {
  ProducerId : string;
  Kind : MediaKind;
  Type' : ConsumerType;
  RtpParameters_ : RtpParameters
}.

Record ConsumerOptions := {
  options_ProducerId : string;
  options_RtpCapabilities : RtpCapabilities;
  options_Paused : bool;
  options_Mid : string;
  options_PreferredLayers : option ConsumerLayers;
  options_IgnoreDtx : bool;
  options_Pipe : bool;
  options_AppData : Any;
  options_Ssrc : N                         (* uint32 *)
}.

(** A registered callback is an opaque closure; calling it is an effect. *)
Definition Handler := nat.

Record consumerParams := {
  params_internal : internalData;
  params_data : consumerData;
  params_appData : Any;
  params_paused : bool;
  params_producerPaused : bool;
  params_score : option ConsumerScore;
  params_preferredLayers : option ConsumerLayers
}.

(** The [Consumer] struct.  Pointers are options ([None] is nil); the
    embedded emitter, the observer, the channels and the logger are external
    objects and appear in the [Effect]s instead. *)
Record Consumer := {
  internal : internalData;
  data : consumerData;
  appData : Any;
  paused : bool;
  closed : N;                              (* uint32, accessed atomically *)
  producerPaused : bool;
  priority : N;                            (* uint32 *)
  score : option ConsumerScore;
  preferredLayers : option ConsumerLayers;
  currentLayers : option ConsumerLayers;
  onClose : option Handler;
  onProducerClose : option Handler;
  onTransportClose : option Handler;
  onPause : option Handler;
  onResume : option Handler;
  onProducerPause : option Handler;
  onProducerResume : option Handler;
  onScore : option Handler;
  onLayersChange : option Handler;
  onTrace : option Handler;
  onRtp : option Handler
}.

(** Field assignments. *)
Definition set_closed (v : N) (c : Consumer) : Consumer :=
  {| internal := internal c; data := data c; appData := appData c;
     paused := paused c; closed := v; producerPaused := producerPaused c;
     priority := priority c; score := score c;
     preferredLayers := preferredLayers c; currentLayers := currentLayers c;
     onClose := onClose c; onProducerClose := onProducerClose c;
     onTransportClose := onTransportClose c; onPause := onPause c;
     onResume := onResume c; onProducerPause := onProducerPause c;
     onProducerResume := onProducerResume c; onScore := onScore c;
     onLayersChange := onLayersChange c; onTrace := onTrace c;
     onRtp := onRtp c |}.

Definition set_paused (v : bool) (c : Consumer) : Consumer :=
  {| internal := internal c; data := data c; appData := appData c;
     paused := v; closed := closed c; producerPaused := producerPaused c;
     priority := priority c; score := score c;
     preferredLayers := preferredLayers c; currentLayers := currentLayers c;
     onClose := onClose c; onProducerClose := onProducerClose c;
     onTransportClose := onTransportClose c; onPause := onPause c;
     onResume := onResume c; onProducerPause := onProducerPause c;
     onProducerResume := onProducerResume c; onScore := onScore c;
     onLayersChange := onLayersChange c; onTrace := onTrace c;
     onRtp := onRtp c |}.

Definition set_producerPaused (v : bool) (c : Consumer) : Consumer :=
  {| internal := internal c; data := data c; appData := appData c;
     paused := paused c; closed := closed c; producerPaused := v;
     priority := priority c; score := score c;
     preferredLayers := preferredLayers c; currentLayers := currentLayers c;
     onClose := onClose c; onProducerClose := onProducerClose c;
     onTransportClose := onTransportClose c; onPause := onPause c;
     onResume := onResume c; onProducerPause := onProducerPause c;
     onProducerResume := onProducerResume c; onScore := onScore c;
     onLayersChange := onLayersChange c; onTrace := onTrace c;
     onRtp := onRtp c |}.

Definition set_priority (v : N) (c : Consumer) : Consumer :=
  {| internal := internal c; data := data c; appData := appData c;
     paused := paused c; closed := closed c; producerPaused := producerPaused c;
     priority := v; score := score c;
     preferredLayers := preferredLayers c; currentLayers := currentLayers c;
     onClose := onClose c; onProducerClose := onProducerClose c;
     onTransportClose := onTransportClose c; onPause := onPause c;
     onResume := onResume c; onProducerPause := onProducerPause c;
     onProducerResume := onProducerResume c; onScore := onScore c;
     onLayersChange := onLayersChange c; onTrace := onTrace c;
     onRtp := onRtp c |}.

Definition set_score (v : option ConsumerScore) (c : Consumer) : Consumer :=
  {| internal := internal c; data := data c; appData := appData c;
     paused := paused c; closed := closed c; producerPaused := producerPaused c;
     priority := priority c; score := v;
     preferredLayers := preferredLayers c; currentLayers := currentLayers c;
     onClose := onClose c; onProducerClose := onProducerClose c;
     onTransportClose := onTransportClose c; onPause := onPause c;
     onResume := onResume c; onProducerPause := onProducerPause c;
     onProducerResume := onProducerResume c; onScore := onScore c;
     onLayersChange := onLayersChange c; onTrace := onTrace c;
     onRtp := onRtp c |}.

Definition set_preferredLayers (v : option ConsumerLayers) (c : Consumer) : Consumer :=
  {| internal := internal c; data := data c; appData := appData c;
     paused := paused c; closed := closed c; producerPaused := producerPaused c;
     priority := priority c; score := score c;
     preferredLayers := v; currentLayers := currentLayers c;
     onClose := onClose c; onProducerClose := onProducerClose c;
     onTransportClose := onTransportClose c; onPause := onPause c;
     onResume := onResume c; onProducerPause := onProducerPause c;
     onProducerResume := onProducerResume c; onScore := onScore c;
     onLayersChange := onLayersChange c; onTrace := onTrace c;
     onRtp := onRtp c |}.

Definition set_currentLayers (v : option ConsumerLayers) (c : Consumer) : Consumer :=
  {| internal := internal c; data := data c; appData := appData c;
     paused := paused c; closed := closed c; producerPaused := producerPaused c;
     priority := priority c; score := score c;
     preferredLayers := preferredLayers c; currentLayers := v;
     onClose := onClose c; onProducerClose := onProducerClose c;
     onTransportClose := onTransportClose c; onPause := onPause c;
     onResume := onResume c; onProducerPause := onProducerPause c;
     onProducerResume := onProducerResume c; onScore := onScore c;
     onLayersChange := onLayersChange c; onTrace := onTrace c;
     onRtp := onRtp c |}.

(** ** Observable effects *)

(** The two emitters of a consumer: the embedded [IEventEmitter] and
    [consumer.observer]. *)
Inductive Emitter := Public | Observer.

(** Arguments passed to listeners and callbacks. *)
Inductive Arg :=
| ArgScore (s : option ConsumerScore)                (* score *)
| ArgScoreRef (s : option ConsumerScore)             (* &score *)
| ArgLayers (l : option ConsumerLayers)
| ArgTrace (t : option (ConsumerTraceEventData H))
| ArgBytes (b : list Byte.byte).

(** Key/value pairs handed to the logger. *)
Inductive LogValue :=
| LogString (s : string)
| LogBytes (b : list Byte.byte)
| LogInternal (i : internalData).

(** The [params] of [channel.Request]. *)
Inductive ReqData :=
| ReqNone
| ReqConsumerId (id : string)                        (* H{"consumerId": id} *)
| ReqLayers (l : ConsumerLayers)
| ReqPriority (p : N)                                (* H{"priority": p} *)
| ReqTypes (types : option (list ConsumerTraceEventType)). (* H{"types": types}, None = nil slice *)

Inductive Effect :=
| Log_Info (msg : string) (keysAndValues : list LogValue)
| Log_Error (err : option error) (msg : string) (keysAndValues : list LogValue)
| Channel_Subscribe (id : string)
| Channel_Unsubscribe (id : string)
| Channel_Request (method : string) (i : internalData) (d : ReqData)
| PayloadChannel_Subscribe (id : string)
| PayloadChannel_Unsubscribe (id : string)
| Emit (em : Emitter) (event : string) (args : list Arg)
| SafeEmit (em : Emitter) (event : string) (args : list Arg)
| RemoveAllListeners (em : Emitter)
| Call (h : Handler) (args : list Arg).

(** ** Programs: sequences of atomic accesses to the shared struct *)

Inductive Prog (A : Type) : Type :=
| Ret (a : A)
| Atomic {B : Type} (f : Consumer -> B * Consumer * list Effect) (k : B -> Prog A).
Arguments Ret {A} a.
Arguments Atomic {A B} f k.

Fixpoint bind {A B} (p : Prog A) (q : A -> Prog B) : Prog B :=
  match p with
  | Ret a => q a
  | Atomic f k => Atomic f (fun b => bind (k b) q)
  end.

Notation "x <- p ;; q" := (bind p (fun x => q))
  (at level 100, p at next level, right associativity) : prog_scope.
Notation "p ;; q" := (bind p (fun _ => q))
  (at level 100, right associativity) : prog_scope.
Open Scope prog_scope.

(** One call run to completion, nothing else touching the struct meanwhile. *)
Fixpoint exec {A} (p : Prog A) (c : Consumer) : A * Consumer * list Effect :=
  match p with
  | Ret a => (a, c, [])
  | Atomic f k =>
      let '(b, c1, e1) := f c in
      let '(a, c2, e2) := exec (k b) c1 in
      (a, c2, e1 ++ e2)
  end.

Definition result {A} (r : A * Consumer * list Effect) : A := fst (fst r).
Definition state {A} (r : A * Consumer * list Effect) : Consumer := snd (fst r).
Definition effects {A} (r : A * Consumer * list Effect) : list Effect := snd r.

(** Primitive accesses. *)
Definition load {B} (field : Consumer -> B) : Prog B :=
  Atomic (fun c => (field c, c, [])) Ret.
Definition store (assign : Consumer -> Consumer) : Prog unit :=
  Atomic (fun c => (tt, assign c, [])) Ret.
Definition perform (e : Effect) : Prog unit :=
  Atomic (fun c => (tt, c, [e])) Ret.
(** An effect whose arguments are read from the struct at the call. *)
Definition perform_with (e : Consumer -> Effect) : Prog unit :=
  Atomic (fun c => (tt, c, [e c])) Ret.

(** [atomic.CompareAndSwapUint32(&consumer.closed, old, new)] *)
Definition atomic_CompareAndSwap_closed (old new : N) : Prog bool :=
  Atomic (fun c => if (closed c =? old)%N then (true, set_closed new c, [])
                   else (false, c, [])) Ret.
(** [atomic.LoadUint32(&consumer.closed)] *)
Definition atomic_Load_closed : Prog N := load closed.

(** [channel.Request(method, internal, data)]: the request goes out and the
    call blocks until the worker's response [rsp] arrives. *)
Definition channel_Request (method : string) (d : Consumer -> ReqData)
    (rsp : workerResponse) : Prog workerResponse :=
  perform_with (fun c => Channel_Request method (internal c) (d c)) ;; Ret rsp.

(** [a || b] and [a && b] evaluate [b] only when needed. *)
Definition or_else (a b : Prog bool) : Prog bool :=
  x <- a ;; if x then Ret true else b.
Definition and_then (a b : Prog bool) : Prog bool :=
  x <- a ;; if x then b else Ret false.

(** [if handler := slot; handler != nil { handler(args...) }] *)
Definition call_handler (slot : Consumer -> option Handler) (args : list Arg) : Prog unit :=
  handler <- load slot ;;
  match handler with
  | Some h => perform (Call h args)
  | None => Ret tt
  end.


(** ** The methods of [*Consumer]

    A method that sends a request takes the worker's response to it as its
    argument [rsp].  Getters whose name is also a struct field carry the
    receiver's name ([Consumer_Score] for [consumer.Score()]). *)

Definition default_score : ConsumerScore :=
  {| Score := 10; ProducerScore := 10; ProducerScores := [] |}.

Definition Id : Prog string := load (fun c => ConsumerId (internal c)).
Definition Consumer_ConsumerId : Prog string := load (fun c => ConsumerId (internal c)).
Definition Consumer_ProducerId : Prog string := load (fun c => ProducerId (data c)).

Definition Closed : Prog bool :=
  v <- atomic_Load_closed ;; Ret (0 <? v)%N.

Definition Consumer_Kind : Prog MediaKind := load (fun c => Kind (data c)).
Definition Consumer_RtpParameters : Prog RtpParameters :=
  load (fun c => RtpParameters_ (data c)).
Definition Consumer_Type : Prog ConsumerType := load (fun c => Type' (data c)).
Definition Paused : Prog bool := load paused.
Definition ProducerPaused : Prog bool := load producerPaused.
Definition Priority : Prog N := load priority.
Definition Consumer_Score : Prog (option ConsumerScore) := load score.
Definition PreferredLayers : Prog (option ConsumerLayers) := load preferredLayers.
Definition CurrentLayers : Prog (option ConsumerLayers) := load currentLayers.
Definition AppData : Prog Any := load appData.

(** [consumer.close()]: the observer's "close" event. *)
Definition close : Prog unit :=
  perform (SafeEmit Observer "close" []) ;;
  perform (RemoveAllListeners Observer) ;;
  call_handler onClose [].

Definition Close (rsp : workerResponse) : Prog (option error) :=
  swapped <- atomic_CompareAndSwap_closed 0 1 ;;
  if swapped : bool then
    perform (Log_Info "close()" []) ;;
    perform_with (fun c => Channel_Unsubscribe (ConsumerId (internal c))) ;;
    perform_with (fun c => PayloadChannel_Unsubscribe (ConsumerId (internal c))) ;;
    response <- channel_Request "transport.closeConsumer"
                  (fun c => ReqConsumerId (ConsumerId (internal c))) rsp ;;
    let err := Response_Err response in
    match err with
    | Some e => perform (Log_Error (Some e) "consumer close failed" [])
    | None => Ret tt
    end ;;
    perform (Emit Public "@close" []) ;;
    perform (RemoveAllListeners Public) ;;
    close ;;
    Ret err
  else
    Ret None.

Definition transportClosed : Prog unit :=
  swapped <- atomic_CompareAndSwap_closed 0 1 ;;
  if swapped : bool then
    perform (Log_Info "transportClosed()" []) ;;
    perform_with (fun c => Channel_Unsubscribe (ConsumerId (internal c))) ;;
    perform_with (fun c => PayloadChannel_Unsubscribe (ConsumerId (internal c))) ;;
    perform (SafeEmit Public "transportclose" []) ;;
    perform (RemoveAllListeners Public) ;;
    call_handler onTransportClose [] ;;
    close
  else
    Ret tt.

Definition Dump (rsp : workerResponse) : Prog (option ConsumerDump * option error) :=
  perform (Log_Info "dump()" []) ;;
  resp <- channel_Request "consumer.dump" (fun _ => ReqNone) rsp ;;
  let '(err, dump) := Response_Unmarshal_Dump resp in
  Ret (dump, err).

Definition GetStats (rsp : workerResponse) : Prog (list ConsumerStat * option error) :=
  perform (Log_Info "getStats()" []) ;;
  resp <- channel_Request "consumer.getStats" (fun _ => ReqNone) rsp ;;
  let '(err, stats) := Response_Unmarshal_Stats resp in
  Ret (stats, err).

Definition Pause (rsp : workerResponse) : Prog (option error) :=
  perform (Log_Info "pause()" []) ;;
  wasPaused <- or_else (load paused) (load producerPaused) ;;
  response <- channel_Request "consumer.pause" (fun _ => ReqNone) rsp ;;
  match Response_Err response with
  | Some err => Ret (Some err)
  | None =>
      store (set_paused true) ;;
      (if negb wasPaused then
         perform (SafeEmit Observer "pause" []) ;;
         call_handler onPause []
       else Ret tt) ;;
      Ret None
  end.

Definition Resume (rsp : workerResponse) : Prog (option error) :=
  perform (Log_Info "resume()" []) ;;
  wasPaused <- or_else (load paused) (load producerPaused) ;;
  response <- channel_Request "consumer.resume" (fun _ => ReqNone) rsp ;;
  match Response_Err response with
  | Some err => Ret (Some err)
  | None =>
      store (set_paused false) ;;
      emit <- and_then (Ret wasPaused) (pp <- load producerPaused ;; Ret (negb pp)) ;;
      (if emit : bool then
         perform (SafeEmit Observer "resume" []) ;;
         call_handler onResume []
       else Ret tt) ;;
      Ret None
  end.

Definition SetPreferredLayers (layers : ConsumerLayers) (rsp : workerResponse)
    : Prog (option error) :=
  perform (Log_Info "setPreferredLayers()" []) ;;
  response <- channel_Request "consumer.setPreferredLayers" (fun _ => ReqLayers layers) rsp ;;
  Atomic (fun c => let '(err, v) := Response_Unmarshal_Layers response (preferredLayers c) in
                   (err, set_preferredLayers v c, [])) Ret.

Definition SetPriority (priority : N) (rsp : workerResponse) : Prog (option error) :=
  perform (Log_Info "setPriority()" []) ;;
  response <- channel_Request "consumer.setPriority" (fun _ => ReqPriority priority) rsp ;;
  match Response_Unmarshal_Priority response with
  | inl err => Ret (Some err)
  | inr result_Priority =>
      store (set_priority result_Priority) ;;
      Ret None
  end.

Definition UnsetPriority (rsp : workerResponse) : Prog (option error) :=
  perform (Log_Info "unsetPriority()" []) ;;
  SetPriority 1 rsp.

Definition RequestKeyFrame (rsp : workerResponse) : Prog (option error) :=
  perform (Log_Info "requestKeyFrame()" []) ;;
  response <- channel_Request "consumer.requestKeyFrame" (fun _ => ReqNone) rsp ;;
  Ret (Response_Err response).

Definition EnableTraceEvent (types : option (list ConsumerTraceEventType))
    (rsp : workerResponse) : Prog (option error) :=
  perform (Log_Info "enableTraceEvent()" []) ;;
  let types := match types with None => Some [] | Some t => Some t end in
  response <- channel_Request "consumer.enableTraceEvent" (fun _ => ReqTypes types) rsp ;;
  Ret (Response_Err response).

(** ** Notification handlers ([handleWorkerNotifications]) *)

(** The closure subscribed on the control channel. *)
Definition channel_listener (event : string) (data : list Byte.byte) : Prog unit :=
  if event =? "producerclose" then
    swapped <- atomic_CompareAndSwap_closed 0 1 ;;
    if swapped : bool then
      perform_with (fun c => Channel_Unsubscribe (ConsumerId (internal c))) ;;
      perform_with (fun c => PayloadChannel_Unsubscribe (ConsumerId (internal c))) ;;
      perform (Emit Public "@producerclose" []) ;;
      perform (SafeEmit Public "producerclose" []) ;;
      perform (RemoveAllListeners Public) ;;
      call_handler onProducerClose [] ;;
      close
    else Ret tt
  else if event =? "producerpause" then
    pp <- load producerPaused ;;
    if pp : bool then Ret tt
    else
      wasPaused <- or_else (load paused) (load producerPaused) ;;
      store (set_producerPaused true) ;;
      perform (SafeEmit Public "producerpause" []) ;;
      call_handler onProducerPause [] ;;
      if negb wasPaused then
        perform (SafeEmit Observer "pause" []) ;;
        call_handler onPause []
      else Ret tt
  else if event =? "producerresume" then
    pp <- load producerPaused ;;
    if negb pp then Ret tt
    else
      wasPaused <- or_else (load paused) (load producerPaused) ;;
      store (set_producerPaused false) ;;
      perform (SafeEmit Public "producerresume" []) ;;
      call_handler onProducerResume [] ;;
      emit <- and_then (Ret wasPaused) (p <- load paused ;; Ret (negb p)) ;;
      if emit : bool then
        perform (SafeEmit Observer "resume" []) ;;
        call_handler onResume []
      else Ret tt
  else if event =? "score" then
    match json_Unmarshal_Score data with
    | inl err =>
        perform (Log_Error (Some err) "failed to unmarshal score"
                   [LogString "data"; LogBytes data])
    | inr score =>
        store (set_score score) ;;
        perform (SafeEmit Public "score" [ArgScore score]) ;;
        perform (SafeEmit Observer "score" [ArgScoreRef score]) ;;
        call_handler onScore [ArgScore score]
    end
  else if event =? "layerschange" then
    match json_Unmarshal_Layers data with
    | inl err =>
        perform (Log_Error (Some err) "failed to unmarshal layers"
                   [LogString "data"; LogBytes data])
    | inr layers =>
        store (set_currentLayers layers) ;;
        perform (SafeEmit Public "layerschange" [ArgLayers layers]) ;;
        perform (SafeEmit Observer "layerschange" [ArgLayers layers]) ;;
        call_handler onLayersChange [ArgLayers layers]
    end
  else if event =? "trace" then
    match json_Unmarshal_Trace data with
    | inl err =>
        perform (Log_Error (Some err) "failed to unmarshal trace"
                   [LogString "data"; LogBytes data])
    | inr trace =>
        perform (SafeEmit Public "trace" [ArgTrace trace]) ;;
        perform (SafeEmit Observer "trace" [ArgTrace trace]) ;;
        call_handler onTrace [ArgTrace trace]
    end
  else
    perform (Log_Error None "ignoring unknown event in channel listener"
               [LogString "event"; LogString event]).

(** The closure subscribed on the payload channel. *)
Definition payloadChannel_listener (event : string) (data payload : list Byte.byte)
    : Prog unit :=
  if event =? "rtp" then
    isClosed <- Closed ;;
    if isClosed : bool then Ret tt
    else
      perform (SafeEmit Public "rtp" [ArgBytes payload]) ;;
      call_handler onRtp [ArgBytes payload]
  else
    perform (Log_Error None "ignoring unknown event in payload channel listener"
               [LogString "event"; LogString event]).

Definition handleWorkerNotifications : Prog unit :=
  id <- Id ;;
  perform (Channel_Subscribe id) ;;
  id <- Id ;;
  perform (PayloadChannel_Subscribe id).

(** [newConsumer]: the struct it builds, and what building it does. *)
Definition newConsumer (params : consumerParams) : Consumer * list Effect :=
  let score := match params_score params with
               | None => Some default_score
               | Some s => Some s
               end in
  let consumer :=
    {| internal := params_internal params;
       data := params_data params;
       appData := params_appData params;
       paused := params_paused params;
       closed := 0;
       producerPaused := params_producerPaused params;
       priority := 1;
       score := score;
       preferredLayers := params_preferredLayers params;
       currentLayers := None;
       onClose := None; onProducerClose := None; onTransportClose := None;
       onPause := None; onResume := None; onProducerPause := None;
       onProducerResume := None; onScore := None; onLayersChange := None;
       onTrace := None; onRtp := None |} in
  let r := exec handleWorkerNotifications consumer in
  (state r,
   Log_Info "constructor()" [LogString "internal"; LogInternal (params_internal params)]
     :: effects r).

(** ** Goroutines sharing one consumer

    A pool of calls in flight on the same [*Consumer]; the scheduler picks
    which one performs its next atomic access. *)

Record Pool (R : Type) := {
  shared : Consumer;
  threads : list (Prog R);
  trace : list Effect
}.
Arguments shared {R} _.
Arguments threads {R} _.
Arguments trace {R} _.

Definition spawn {R} (c : Consumer) (calls : list (Prog R)) : Pool R :=
  {| shared := c; threads := calls; trace := [] |}.

Definition step {R} (i : nat) (P : Pool R) : Pool R :=
  match threads P !! i with
  | Some (Atomic f k) =>
      let '(b, c, e) := f (shared P) in
      {| shared := c; threads := <[i := k b]> (threads P); trace := trace P ++ e |}
  | _ => P
  end.

Definition run_schedule {R} (s : list nat) (P : Pool R) : Pool R :=
  fold_left (fun P i => step i P) s P.

Definition returned {R} (p : Prog R) : bool :=
  match p with Ret _ => true | Atomic _ _ => false end.

(** Every call in the pool has returned. *)
Definition finished {R} (P : Pool R) : bool :=
  forallb returned (threads P).

(** The calls run one after the other, each to completion. *)
Fixpoint run_serial {R} (calls : list (Prog R)) (c : Consumer) : Consumer * list Effect :=
  match calls with
  | [] => (c, [])
  | p :: calls =>
      let r := exec p c in
      let '(c', e') := run_serial calls (state r) in
      (c', effects r ++ e')
  end.

(** Mutual exclusion around whole calls would make every interleaving end
    like one of the serial orders. *)
Definition serializable {R} (c : Consumer) (calls : list (Prog R)) : Prop :=
  forall s : list nat,
    let P := run_schedule s (spawn c calls) in
    finished P = true ->
    exists order, Permutation order calls /\ run_serial order c = (shared P, trace P).

(** The two ways a consumer is closed from its owner's side. *)
Inductive CloseCall :=
| Call_Close (rsp : workerResponse)
| Call_transportClosed.

Definition close_call (k : CloseCall) : Prog (option error) :=
  match k with
  | Call_Close rsp => Close rsp
  | Call_transportClosed => transportClosed ;; Ret None
  end.

(** The four ways the pause flags change. *)
Inductive PauseOp :=
| Op_Pause (rsp : workerResponse)
| Op_Resume (rsp : workerResponse)
| Op_producerpause (data : list Byte.byte)
| Op_producerresume (data : list Byte.byte).

Definition pause_op (o : PauseOp) : Prog (option error) :=
  match o with
  | Op_Pause rsp => Pause rsp
  | Op_Resume rsp => Resume rsp
  | Op_producerpause data => channel_listener "producerpause" data ;; Ret None
  | Op_producerresume data => channel_listener "producerresume" data ;; Ret None
  end.

End ConsumerModel.

Arguments Ret {Ext A} a.
Arguments Atomic {Ext A B} f k.
Arguments shared {Ext R} _.
Arguments threads {Ext R} _.
Arguments trace {Ext R} _.

Notation "x <- p ;; q" := (bind p (fun x => q))
  (at level 100, p at next level, right associativity) : prog_scope.
Notation "p ;; q" := (bind p (fun _ => q))
  (at level 100, right associativity) : prog_scope.
Open Scope prog_scope.

(** ** Observations on a trace *)

Section Observations.
Context `{Ext : Externals}.

Definition observer_emits (event : string) (e : Effect) : bool :=
  match e with
  | SafeEmit Observer ev _ => ev =? event
  | _ => false
  end.

Definition requests (method : string) (e : Effect) : bool :=
  match e with
  | Channel_Request m _ _ => m =? method
  | _ => false
  end.

Definition channel_unsubscribes (e : Effect) : bool :=
  match e with Channel_Unsubscribe _ => true | _ => false end.

Definition payloadChannel_unsubscribes (e : Effect) : bool :=
  match e with PayloadChannel_Unsubscribe _ => true | _ => false end.

(** Anything a listener or a callback slot could observe. *)
Definition is_emission (e : Effect) : bool :=
  match e with
  | Emit _ _ _ | SafeEmit _ _ _ | Call _ _ => true
  | _ => false
  end.

Definition is_call (e : Effect) : bool :=
  match e with Call _ _ => true | _ => false end.

Fixpoint occurrences (f : Effect -> bool) (l : list Effect) : nat :=
  match l with
  | [] => 0
  | e :: l => (if f e then 1 else 0) + occurrences f l
  end.

(** [paused || producerPaused], the consumer's effective pause state. *)
Definition effectivelyPaused (c : Consumer) : bool :=
  paused c || producerPaused c.

(** What a callback slot contributes to the trace when it is consulted. *)
Definition handler_call (slot : option Handler) (args : list Arg) : list Effect :=
  match slot with Some h => [Call h args] | None => [] end.

(** What the first [Close] leaves on the trace, given the error (if any) of
    the response to its request. *)
Definition Close_effects (c : Consumer) (err : option error) : list Effect :=
  [ Log_Info "close()" [];
    Channel_Unsubscribe (ConsumerId (internal c));
    PayloadChannel_Unsubscribe (ConsumerId (internal c));
    Channel_Request "transport.closeConsumer" (internal c)
      (ReqConsumerId (ConsumerId (internal c))) ]
  ++ match err with
     | Some e => [Log_Error (Some e) "consumer close failed" []]
     | None => []
     end
  ++ [ Emit Public "@close" []; RemoveAllListeners Public;
       SafeEmit Observer "close" []; RemoveAllListeners Observer ]
  ++ handler_call (onClose c) [].

(** What the first [transportClosed] leaves on the trace. *)
Definition transportClosed_effects (c : Consumer) : list Effect :=
  [ Log_Info "transportClosed()" [];
    Channel_Unsubscribe (ConsumerId (internal c));
    PayloadChannel_Unsubscribe (ConsumerId (internal c));
    SafeEmit Public "transportclose" []; RemoveAllListeners Public ]
  ++ handler_call (onTransportClose c) []
  ++ [ SafeEmit Observer "close" []; RemoveAllListeners Observer ]
  ++ handler_call (onClose c) [].

Definition close_call_effects (c : Consumer) (k : CloseCall) : list Effect :=
  match k with
  | Call_Close rsp => Close_effects c (Response_Err rsp)
  | Call_transportClosed => transportClosed_effects c
  end.

(** The tags the control-channel listener knows. *)
Definition known_events : list string :=
  ["producerclose"; "producerpause"; "producerresume"; "score";
   "layerschange"; "trace"].

(** A program that never writes the struct. *)
Inductive readonly {A} : Prog A -> Prop :=
| readonly_Ret (a : A) : readonly (Ret a)
| readonly_Atomic {B} (f : Consumer -> B * Consumer * list Effect) (k : B -> Prog A) :
    (forall c, snd (fst (f c)) = c) ->
    (forall b, readonly (k b)) ->
    readonly (Atomic f k).

(** The state of the pool once some call [w] has won the compare-and-swap:
    the flag is set, [w] is somewhere in its read-only remainder, and every
    other call either has not started or has returned nil. *)
Record won (c0 : Consumer) (calls : list CloseCall) (w : nat) (first : CloseCall)
    (P : Pool (option error)) : Prop := {
  won_shared : shared P = set_closed 1 c0;
  won_length : length (threads P) = length calls;
  won_winner : exists p, threads P !! w = Some p /\ readonly p /\
      result (exec p (shared P)) = result (exec (close_call first) c0) /\
      trace P ++ effects (exec p (shared P)) = effects (exec (close_call first) c0);
  won_losers : forall i k, i <> w -> calls !! i = Some k ->
      threads P !! i = Some (close_call k) \/ threads P !! i = Some (Ret None)
}.

End Observations.

Arguments readonly_Ret {Ext A} a.
Arguments readonly_Atomic {Ext A B} f k _ _.

(** ** The whole surface of a consumer *)

Section Surface.
Context `{Ext : Externals}.

Definition is_request (e : Effect) : bool :=
  match e with Channel_Request _ _ _ => true | _ => false end.

(** An event on the consumer's own emitter, by [Emit] or by [SafeEmit]. *)
Definition public_emits (event : string) (e : Effect) : bool :=
  match e with
  | Emit Public ev _ | SafeEmit Public ev _ => ev =? event
  | _ => false
  end.

Definition channel_subscribes (id : string) (e : Effect) : bool :=
  match e with Channel_Subscribe i => i =? id | _ => false end.
Definition payloadChannel_subscribes (id : string) (e : Effect) : bool :=
  match e with PayloadChannel_Subscribe i => i =? id | _ => false end.
Definition channel_unsubscribes_key (id : string) (e : Effect) : bool :=
  match e with Channel_Unsubscribe i => i =? id | _ => false end.
Definition payloadChannel_unsubscribes_key (id : string) (e : Effect) : bool :=
  match e with PayloadChannel_Unsubscribe i => i =? id | _ => false end.

(** The three ways a consumer gets closed: the two calls of its owner and
    the worker's "producerclose" notification. *)
Inductive Closer :=
| Closer_Close (rsp : workerResponse)
| Closer_transportClosed
| Closer_producerclose (data : list Byte.byte).

Definition closer (k : Closer) : Prog (option error) :=
  match k with
  | Closer_Close rsp => Close rsp
  | Closer_transportClosed => transportClosed ;; Ret None
  | Closer_producerclose data => channel_listener "producerclose" data ;; Ret None
  end.

(** What the first "producerclose" leaves on the trace. *)
Definition producerclose_effects (c : Consumer) : list Effect :=
  [ Channel_Unsubscribe (ConsumerId (internal c));
    PayloadChannel_Unsubscribe (ConsumerId (internal c));
    Emit Public "@producerclose" []; SafeEmit Public "producerclose" [];
    RemoveAllListeners Public ]
  ++ handler_call (onProducerClose c) []
  ++ [ SafeEmit Observer "close" []; RemoveAllListeners Observer ]
  ++ handler_call (onClose c) [].

Definition closer_effects (c : Consumer) (k : Closer) : list Effect :=
  match k with
  | Closer_Close rsp => Close_effects c (Response_Err rsp)
  | Closer_transportClosed => transportClosed_effects c
  | Closer_producerclose _ => producerclose_effects c
  end.

(** Everything that can be done to a consumer once it is built: its
    methods, and the two listeners [handleWorkerNotifications] subscribes. *)
Inductive Action :=
| Do_Close (rsp : workerResponse)
| Do_transportClosed
| Do_Dump (rsp : workerResponse)
| Do_GetStats (rsp : workerResponse)
| Do_Pause (rsp : workerResponse)
| Do_Resume (rsp : workerResponse)
| Do_SetPreferredLayers (layers : ConsumerLayers) (rsp : workerResponse)
| Do_SetPriority (priority : N) (rsp : workerResponse)
| Do_UnsetPriority (rsp : workerResponse)
| Do_RequestKeyFrame (rsp : workerResponse)
| Do_EnableTraceEvent (types : option (list ConsumerTraceEventType))
    (rsp : workerResponse)
| Do_notification (event : string) (data : list Byte.byte)
| Do_payload (event : string) (data payload : list Byte.byte).

(** The action as a program, its return value dropped. *)
Definition act (a : Action) : Prog unit :=
  match a with
  | Do_Close rsp => Close rsp ;; Ret tt
  | Do_transportClosed => transportClosed
  | Do_Dump rsp => Dump rsp ;; Ret tt
  | Do_GetStats rsp => GetStats rsp ;; Ret tt
  | Do_Pause rsp => Pause rsp ;; Ret tt
  | Do_Resume rsp => Resume rsp ;; Ret tt
  | Do_SetPreferredLayers layers rsp => SetPreferredLayers layers rsp ;; Ret tt
  | Do_SetPriority priority rsp => SetPriority priority rsp ;; Ret tt
  | Do_UnsetPriority rsp => UnsetPriority rsp ;; Ret tt
  | Do_RequestKeyFrame rsp => RequestKeyFrame rsp ;; Ret tt
  | Do_EnableTraceEvent types rsp => EnableTraceEvent types rsp ;; Ret tt
  | Do_notification event data => channel_listener event data
  | Do_payload event data payload => payloadChannel_listener event data payload
  end.

(** A history: the actions run one after the other. *)
Definition run_actions (l : list Action) (c : Consumer) : Consumer * list Effect :=
  run_serial (map act l) c.

(** The actions that do not close the consumer. *)
Definition closes (a : Action) : bool :=
  match a with
  | Do_Close _ | Do_transportClosed => true
  | Do_notification event _ => event =? "producerclose"
  | _ => false
  end.

(** The actions that come from the worker, as opposed to the application. *)
Definition from_worker (a : Action) : bool :=
  match a with
  | Do_notification _ _ | Do_payload _ _ _ => true
  | _ => false
  end.

(** [won], for any family of calls. *)
Record won_by {K : Type} (prog : K -> Prog (option error))
    (c0 : Consumer) (calls : list K) (w : nat) (first : K)
    (P : Pool (option error)) : Prop := {
  won_by_shared : shared P = set_closed 1 c0;
  won_by_length : length (threads P) = length calls;
  won_by_winner : exists p, threads P !! w = Some p /\ readonly p /\
      result (exec p (shared P)) = result (exec (prog first) c0) /\
      trace P ++ effects (exec p (shared P)) = effects (exec (prog first) c0);
  won_by_losers : forall i k, i <> w -> calls !! i = Some k ->
      threads P !! i = Some (prog k) \/ threads P !! i = Some (Ret None)
}.

(** A call that starts with the compare-and-swap on [closed], returns nil
    when it fails and only reads the struct when it succeeds. *)
Definition guarded_by_closed (p : Prog (option error)) : Prop :=
  exists (f : Consumer -> bool * Consumer * list Effect)
         (rest : bool -> Prog (option error)),
    p = Atomic f rest /\
    (forall c, closed c = 0%N -> f c = (true, set_closed 1 c, [])) /\
    (forall c, closed c <> 0%N -> f c = (false, c, [])) /\
    rest false = Ret None /\
    readonly (rest true).

End Surface.

(** A stand-in for the collaborators, used to run the model on concrete
    inputs: a response is its error, the priority it echoes and the layers
    it confirms; a notification payload is read one byte per number. *)
Module Sample.

Record Response := {
  rsp_err : option error;
  rsp_priority : N;
  rsp_layers : option ConsumerLayers
}.

Definition ok : Response :=
  {| rsp_err := None; rsp_priority := 1; rsp_layers := None |}.
Definition failed (e : error) : Response :=
  {| rsp_err := Some e; rsp_priority := 0; rsp_layers := None |}.

Definition num (b : Byte.byte) : N := Byte.to_N b.

Definition decode_score (data : list Byte.byte) : error + option ConsumerScore :=
  match data with
  | s :: p :: ps =>
      inr (Some {| Score := num s; ProducerScore := num p;
                   ProducerScores := map num ps |})
  | _ => inl "unexpected end of input"
  end.

Definition decode_layers (data : list Byte.byte) : error + option ConsumerLayers :=
  match data with
  | [] => inr None
  | [s; t] => inr (Some {| SpatialLayer := num s; TemporalLayer := num t |})
  | _ => inl "invalid layers"
  end.

#[global] Instance externals : Externals := {|
  MediaKind := string;
  RtpParameters := unit;
  RtpCapabilities := unit;
  Any := unit;
  H := unit;
  ConsumerDump := unit;
  ConsumerStat := unit;
  workerResponse := Response;
  Response_Err := rsp_err;
  Response_Unmarshal_Priority := fun r =>
    match rsp_err r with Some e => inl e | None => inr (rsp_priority r) end;
  Response_Unmarshal_Layers := fun r old =>
    match rsp_err r with Some e => (Some e, old) | None => (None, rsp_layers r) end;
  Response_Unmarshal_Dump := fun r => (rsp_err r, None);
  Response_Unmarshal_Stats := fun r => (rsp_err r, []);
  json_Unmarshal_Score := decode_score;
  json_Unmarshal_Layers := decode_layers;
  json_Unmarshal_Trace := fun _ => inl "invalid trace"
|}.

Definition params (paused producerPaused : bool) : consumerParams :=
  {| params_internal := {| routerId := "router"; transportId := "transport";
                           ConsumerId := "consumer"; producerId := "producer" |};
     params_data := {| ProducerId := "producer"; Kind := "video";
                       Type' := ConsumerType_Simple; RtpParameters_ := tt |};
     params_appData := tt;
     params_paused := paused;
     params_producerPaused := producerPaused;
     params_score := None;
     params_preferredLayers := None |}.

(** A freshly built consumer with the given pause flags. *)
Definition consumer (paused producerPaused : bool) : Consumer :=
  fst (newConsumer (params paused producerPaused)).

(** Three closing calls in flight at once, and a schedule that lets the
    [transportClosed] among them get to the flag first. *)
Definition closing_calls : list CloseCall :=
  [Call_Close ok; Call_transportClosed; Call_Close (failed "worker closed")].
Definition closing_schedule : list nat :=
  [5; 1; 0; 1; 2; 1; 1; 0; 1; 1; 1; 1; 1; 1; 1].

(** A [Pause] and a "producerpause" notification in flight at once, and a
    schedule in which the notification is handled after [Pause] has read the
    flags and before it writes. *)
Definition racing_calls : list (Prog (option error)) :=
  [pause_op (Op_Pause ok); pause_op (Op_producerpause [])].
Definition racing_schedule : list nat :=
  [0; 0; 0; 1; 1; 1; 1; 1; 1; 1; 1; 0; 0; 0; 0; 0].

(** A "score" payload for the stand-in decoder: 5, 7, [7, 3]. *)
Definition score_data : list Byte.byte :=
  [Byte.x05; Byte.x07; Byte.x07; Byte.x03].

End Sample.

(** ** Running programs *)

Section Exec.
Context `{Ext : Externals}.

Lemma exec_bind {A B} (p : Prog A) (q : A -> Prog B) (c : Consumer) :
  exec (bind p q) c =
  let r := exec p c in
  let r' := exec (q (result r)) (state r) in
  (result r', state r', effects r ++ effects r').
Proof.
  revert c. induction p as [a | X f k IH]; intros c; cbn.
  - destruct (exec (q a) c) as [[b c'] e]. reflexivity.
  - destruct (f c) as [[x c1] e1]. rewrite IH. cbn.
    destruct (exec (k x) c1) as [[a c2] e2]. cbn.
    destruct (exec (q a) c2) as [[b c3] e3]. cbn.
    rewrite <- app_assoc. reflexivity.
Qed.

End Exec.

(** Symbolic execution: unfold the program, and use what is known about the
    fields it reads. *)
Ltac use_fields :=
  repeat match goal with
         | H : ?f ?c = _ |- context [?f ?c] => rewrite H
         end.
Ltac run_exec := repeat (progress (cbn; use_fields)).
Ltac split_all := repeat match goal with |- _ /\ _ => split end.

(** ** Local calls: Pause and Resume *)

Section LocalCalls.
Context `{Ext : Externals}.

Lemma Pause_failed (c : Consumer) (rsp : workerResponse) (err : error) :
  Response_Err rsp = Some err ->
  exec (Pause rsp) c =
  (Some err, c,
   [Log_Info "pause()" []; Channel_Request "consumer.pause" (internal c) ReqNone]).
Proof.
  intros He. unfold Pause.
  destruct (paused c) eqn:Hp, (producerPaused c) eqn:Hpp; run_exec; reflexivity.
Qed.

Lemma Pause_ok (c : Consumer) (rsp : workerResponse) :
  Response_Err rsp = None ->
  exec (Pause rsp) c =
  (None, set_paused true c,
   [Log_Info "pause()" []; Channel_Request "consumer.pause" (internal c) ReqNone]
   ++ (if effectivelyPaused c then []
       else SafeEmit Observer "pause" [] :: handler_call (onPause c) [])).
Proof.
  intros He. unfold Pause, effectivelyPaused.
  destruct (paused c) eqn:Hp, (producerPaused c) eqn:Hpp, (onPause c) eqn:Hh;
    run_exec; reflexivity.
Qed.

Lemma Resume_failed (c : Consumer) (rsp : workerResponse) (err : error) :
  Response_Err rsp = Some err ->
  exec (Resume rsp) c =
  (Some err, c,
   [Log_Info "resume()" []; Channel_Request "consumer.resume" (internal c) ReqNone]).
Proof.
  intros He. unfold Resume.
  destruct (paused c) eqn:Hp, (producerPaused c) eqn:Hpp; run_exec; reflexivity.
Qed.

Lemma Resume_ok (c : Consumer) (rsp : workerResponse) :
  Response_Err rsp = None ->
  exec (Resume rsp) c =
  (None, set_paused false c,
   [Log_Info "resume()" []; Channel_Request "consumer.resume" (internal c) ReqNone]
   ++ (if effectivelyPaused c && negb (producerPaused c)
       then SafeEmit Observer "resume" [] :: handler_call (onResume c) []
       else [])).
Proof.
  intros He. unfold Resume, effectivelyPaused.
  destruct (paused c) eqn:Hp, (producerPaused c) eqn:Hpp, (onResume c) eqn:Hh;
    run_exec; reflexivity.
Qed.

(** C3. A call to [Pause]: when the "consumer.pause" request fails the error
    is returned, the struct is left as it was (so [paused] and
    [producerPaused] keep their values) and nothing is emitted; when it
    succeeds [paused] becomes true, and the observer's "pause" event fires if
    and only if neither [paused] nor [producerPaused] was set before the call,
    in which case the [onPause] callback, if one is registered, runs too. *)
Theorem Pause_spec (c : Consumer) (rsp : workerResponse) :
  let r := exec (Pause rsp) c in
  In (Channel_Request "consumer.pause" (internal c) ReqNone) (effects r) /\
  match Response_Err rsp with
  | Some err =>
      result r = Some err /\
      state r = c /\
      paused (state r) = paused c /\
      producerPaused (state r) = producerPaused c /\
      occurrences is_emission (effects r) = 0
  | None =>
      result r = None /\
      state r = set_paused true c /\
      paused (state r) = true /\
      producerPaused (state r) = producerPaused c /\
      (In (SafeEmit Observer "pause" []) (effects r) <->
         paused c || producerPaused c = false) /\
      (forall h, In (Call h []) (effects r) <->
         paused c || producerPaused c = false /\ onPause c = Some h) /\
      occurrences (observer_emits "pause") (effects r) <= 1
  end.
Proof.
  unfold Pause. cbn.
  destruct (paused c) eqn:Hp, (producerPaused c) eqn:Hpp,
    (Response_Err rsp) as [err |], (onPause c) as [h |] eqn:Hh;
    run_exec; split_all;
    try reflexivity; try lia; try (destruct c; cbn in *; congruence);
    try (intros; split; intros; cbn in *; intuition congruence);
    try (intuition congruence).
Qed.

(** C4. A call to [Resume] whose "consumer.resume" request succeeds sets
    [paused] to false, and the observer's "resume" event fires (with the
    [onResume] callback, if registered) if and only if the consumer was
    effectively paused before the call and [producerPaused] is false after
    it.  In particular, while [producerPaused] is true, [Pause] followed by
    [Resume] emits neither observer event and runs no callback, whatever the
    worker answers. *)
Theorem Resume_spec (c : Consumer) (rsp : workerResponse)
    (Hok : Response_Err rsp = None) :
  let r := exec (Resume rsp) c in
  (result r = None /\
   state r = set_paused false c /\
   paused (state r) = false /\
   (In (SafeEmit Observer "resume" []) (effects r) <->
      paused c || producerPaused c = true /\ producerPaused (state r) = false) /\
   (forall h, In (Call h []) (effects r) <->
      (paused c || producerPaused c = true /\ producerPaused (state r) = false) /\
      onResume c = Some h) /\
   occurrences (observer_emits "resume") (effects r) <= 1) /\
  (producerPaused c = true ->
   forall rsp1 rsp2 : workerResponse,
     let r2 := exec (Pause rsp1 ;; Resume rsp2) c in
     occurrences (observer_emits "pause") (effects r2) = 0 /\
     occurrences (observer_emits "resume") (effects r2) = 0 /\
     occurrences is_call (effects r2) = 0).
Proof.
  split.
  - unfold Resume.
    destruct (paused c) eqn:Hp, (producerPaused c) eqn:Hpp,
      (onResume c) as [h |] eqn:Hh;
      run_exec; split_all;
      try reflexivity; try lia; try (destruct c; cbn in *; congruence);
      try (intros; split; intros; cbn in *; intuition congruence);
      try (intuition congruence).
  - intros Hpp rsp1 rsp2. unfold Pause, Resume.
    destruct (paused c) eqn:Hp,
      (Response_Err rsp1) as [e1 |] eqn:H1,
      (Response_Err rsp2) as [e2 |] eqn:H2;
      run_exec; auto.
Qed.

End LocalCalls.

(** ** Closing *)

Section Closing.
Context `{Ext : Externals}.

Lemma transportClosed_open (c : Consumer) :
  closed c = 0%N ->
  exec transportClosed c = (tt, set_closed 1 c, transportClosed_effects c).
Proof.
  intros Hopen. unfold transportClosed, transportClosed_effects.
  destruct (onTransportClose c) as [h |] eqn:Hh, (onClose c) as [h' |] eqn:Hh';
    run_exec; reflexivity.
Qed.

Lemma transportClosed_closed (c : Consumer) :
  closed c <> 0%N -> exec transportClosed c = (tt, c, []).
Proof.
  intros Hclosed. unfold transportClosed. cbn.
  destruct (closed c); [congruence | reflexivity].
Qed.

Lemma Close_open (c : Consumer) (rsp : workerResponse) :
  closed c = 0%N ->
  exec (Close rsp) c =
  (Response_Err rsp, set_closed 1 c, Close_effects c (Response_Err rsp)).
Proof.
  intros Hopen. unfold Close, Close_effects.
  destruct (Response_Err rsp) as [e |] eqn:He, (onClose c) as [h |] eqn:Hh;
    run_exec; reflexivity.
Qed.

Lemma Close_closed (c : Consumer) (rsp : workerResponse) :
  closed c <> 0%N -> exec (Close rsp) c = (None, c, []).
Proof.
  intros Hclosed. unfold Close. cbn.
  destruct (closed c); [congruence | reflexivity].
Qed.

(** C2, as the code has it.  When the first [Close] of a consumer gets a
    failed response to "transport.closeConsumer", the failure is logged and
    is also what [Close] returns; the consumer is closed all the same and the
    close events are emitted. *)
Theorem Close_failed_request (c : Consumer) (rsp : workerResponse) (e : error)
    (Hopen : closed c = 0%N) (Hfail : Response_Err rsp = Some e) :
  let r := exec (Close rsp) c in
  result r = Some e /\
  In (Log_Error (Some e) "consumer close failed" []) (effects r) /\
  state r = set_closed 1 c /\
  result (exec Closed (state r)) = true /\
  effects r = Close_effects c (Some e) /\
  In (Emit Public "@close" []) (effects r) /\
  In (SafeEmit Observer "close" []) (effects r).
Proof.
  cbn zeta. rewrite (Close_open c rsp Hopen), Hfail. unfold Close_effects.
  cbn. intuition.
Qed.

(** C8. Once a consumer has been closed, by [Close], by [transportClosed] or
    by a "producerclose" notification, an "rtp" event on the payload channel
    is dropped: [Closed()] answers true, nothing is emitted, no callback
    runs and the struct is untouched. *)
Theorem rtp_dropped_once_closed (c : Consumer) (rsp : workerResponse)
    (data data' payload : list Byte.byte) :
  let dropped (c' : Consumer) :=
    result (exec Closed c') = true /\
    exec (payloadChannel_listener "rtp" data' payload) c' = (tt, c', []) in
  dropped (state (exec (Close rsp) c)) /\
  dropped (state (exec transportClosed c)) /\
  dropped (state (exec (channel_listener "producerclose" data) c)).
Proof.
  cbn zeta. unfold Close, transportClosed. cbn.
  destruct (closed c) as [| n] eqn:Hc; run_exec;
    destruct (Response_Err rsp) eqn:He, (onClose c) eqn:H1,
      (onTransportClose c) eqn:H2, (onProducerClose c) eqn:H3;
    run_exec; auto.
Qed.

End Closing.

(** ** Notifications *)

Section Notifications.
Context `{Ext : Externals}.

(** C5. Delivering "producerpause" (or "producerresume") a second time
    changes nothing and emits nothing: the handler tests [producerPaused]
    before it writes.  So two deliveries in a row leave the state one
    delivery leaves, and emit the observer's "pause" (or "resume") at most
    once. *)
Theorem producer_pause_resume_redelivered (c : Consumer) (data data' : list Byte.byte) :
  (let r1 := exec (channel_listener "producerpause" data) c in
   let r2 := exec (channel_listener "producerpause" data') (state r1) in
   effects r2 = [] /\ state r2 = state r1 /\
   state (exec (channel_listener "producerpause" data ;;
                channel_listener "producerpause" data') c) = state r1 /\
   occurrences (observer_emits "pause") (effects r1 ++ effects r2) <= 1) /\
  (let r1 := exec (channel_listener "producerresume" data) c in
   let r2 := exec (channel_listener "producerresume" data') (state r1) in
   effects r2 = [] /\ state r2 = state r1 /\
   state (exec (channel_listener "producerresume" data ;;
                channel_listener "producerresume" data') c) = state r1 /\
   occurrences (observer_emits "resume") (effects r1 ++ effects r2) <= 1).
Proof.
  cbn zeta. rewrite !exec_bind. cbn.
  destruct (producerPaused c) eqn:Hpp, (paused c) eqn:Hp,
    (onProducerPause c) eqn:H1, (onProducerResume c) eqn:H2,
    (onPause c) eqn:H3, (onResume c) eqn:H4;
    run_exec; split_all; auto.
Qed.

Lemma unknown_event (event : string) (data : list Byte.byte) :
  ~ In event known_events ->
  channel_listener event data =
  perform (Log_Error None "ignoring unknown event in channel listener"
             [LogString "event"; LogString event]).
Proof.
  intros Hunk. unfold channel_listener.
  repeat match goal with
         | |- context [(event =? ?tag)%string] =>
             replace (event =? tag)%string with false
               by (symmetry; apply String.eqb_neq; intros ->;
                   apply Hunk; cbn; tauto)
         end.
  reflexivity.
Qed.

(** C9. A control-channel notification whose tag is none of
    producerclose, producerpause, producerresume, score, layerschange and
    trace is logged and otherwise ignored: the struct is unchanged, nothing
    is emitted, the listener returns normally, and the next notification is
    handled exactly as if the unknown one had not arrived. *)
Theorem unknown_event_ignored (c : Consumer) (event : string) (data : list Byte.byte)
    (Hunknown : ~ In event known_events) :
  let r := exec (channel_listener event data) c in
  result r = tt /\ state r = c /\
  effects r = [Log_Error None "ignoring unknown event in channel listener"
                 [LogString "event"; LogString event]] /\
  occurrences is_emission (effects r) = 0 /\
  forall (event' : string) (data' : list Byte.byte),
    let next := exec (channel_listener event' data') c in
    let both := exec (channel_listener event data ;; channel_listener event' data') c in
    result both = result next /\ state both = state next /\
    effects both = effects r ++ effects next.
Proof.
  cbn zeta. setoid_rewrite exec_bind. rewrite (unknown_event event data Hunknown).
  cbn. split_all; auto.
Qed.

End Notifications.

(** ** Score *)

Section ScoreSection.
Context `{Ext : Externals}.

(** C6. A "score" notification that decodes replaces the stored score
    wholesale, whatever it was: after one carrying
    {score:5, producerScore:7, producerScores:[7,3]} the getter [Score()]
    returns exactly that.  A consumer built without an initial score starts
    with {Score:10, ProducerScore:10, ProducerScores:[]}. *)
Theorem score_replaced_and_default :
  (forall (c : Consumer) (data : list Byte.byte),
     json_Unmarshal_Score data =
       inr (Some {| Score := 5; ProducerScore := 7; ProducerScores := [7; 3]%N |}) ->
     result (exec Consumer_Score (state (exec (channel_listener "score" data) c))) =
       Some {| Score := 5; ProducerScore := 7; ProducerScores := [7; 3]%N |}) /\
  (forall (c : Consumer) (data : list Byte.byte) (s : option ConsumerScore),
     json_Unmarshal_Score data = inr s ->
     state (exec (channel_listener "score" data) c) = set_score s c /\
     result (exec Consumer_Score (state (exec (channel_listener "score" data) c))) = s) /\
  (forall params : consumerParams,
     params_score params = None ->
     result (exec Consumer_Score (fst (newConsumer params))) =
       Some {| Score := 10; ProducerScore := 10; ProducerScores := [] |}).
Proof.
  assert (Hany : forall (c : Consumer) (data : list Byte.byte) (s : option ConsumerScore),
             json_Unmarshal_Score data = inr s ->
             state (exec (channel_listener "score" data) c) = set_score s c).
  { intros c data s Hs. unfold channel_listener. cbn. rewrite Hs.
    destruct (onScore c) eqn:Hh; run_exec; reflexivity. }
  split_all.
  - intros c data Hs. rewrite (Hany c data _ Hs). reflexivity.
  - intros c data s Hs. rewrite (Hany c data _ Hs). split; reflexivity.
  - intros params Hnone. unfold newConsumer. rewrite Hnone. reflexivity.
Qed.

End ScoreSection.

(** ** Calls on a closed consumer *)

Section ClosedCalls.
Context `{Ext : Externals}.

(** C10. No local mutating call looks at the closed flag.  On a closed
    consumer [Pause], [Resume], [SetPriority] and the other parameter
    requests still send their request; the error they return is the
    response's own; and a successful response still updates the struct
    ([Pause] sets [paused], [Resume] clears it, [SetPriority] stores the
    echoed priority, [SetPreferredLayers] stores the confirmed layers). *)
Theorem closed_consumer_still_requests (c : Consumer) (rsp : workerResponse)
    (Hclosed : closed c <> 0%N) :
  result (exec Closed c) = true /\
  (let r := exec (Pause rsp) c in
   In (Channel_Request "consumer.pause" (internal c) ReqNone) (effects r) /\
   result r = Response_Err rsp /\
   (Response_Err rsp = None -> state r = set_paused true c /\ paused (state r) = true)) /\
  (let r := exec (Resume rsp) c in
   In (Channel_Request "consumer.resume" (internal c) ReqNone) (effects r) /\
   result r = Response_Err rsp /\
   (Response_Err rsp = None -> state r = set_paused false c /\ paused (state r) = false)) /\
  (forall p : N,
   let r := exec (SetPriority p rsp) c in
   In (Channel_Request "consumer.setPriority" (internal c) (ReqPriority p)) (effects r) /\
   match Response_Unmarshal_Priority rsp with
   | inl err => result r = Some err /\ state r = c
   | inr v => result r = None /\ state r = set_priority v c /\ priority (state r) = v
   end) /\
  (let r := exec (UnsetPriority rsp) c in
   In (Channel_Request "consumer.setPriority" (internal c) (ReqPriority 1)) (effects r)) /\
  (forall layers : ConsumerLayers,
   let r := exec (SetPreferredLayers layers rsp) c in
   In (Channel_Request "consumer.setPreferredLayers" (internal c) (ReqLayers layers))
      (effects r) /\
   result r = fst (Response_Unmarshal_Layers rsp (preferredLayers c)) /\
   preferredLayers (state r) = snd (Response_Unmarshal_Layers rsp (preferredLayers c))) /\
  (let r := exec (RequestKeyFrame rsp) c in
   In (Channel_Request "consumer.requestKeyFrame" (internal c) ReqNone) (effects r) /\
   result r = Response_Err rsp) /\
  (forall types : option (list ConsumerTraceEventType),
   let r := exec (EnableTraceEvent types rsp) c in
   In (Channel_Request "consumer.enableTraceEvent" (internal c)
         (ReqTypes (Some (default [] types)))) (effects r) /\
   result r = Response_Err rsp) /\
  (let r := exec (Dump rsp) c in
   In (Channel_Request "consumer.dump" (internal c) ReqNone) (effects r) /\
   snd (result r) = fst (Response_Unmarshal_Dump rsp)) /\
  (let r := exec (GetStats rsp) c in
   In (Channel_Request "consumer.getStats" (internal c) ReqNone) (effects r) /\
   snd (result r) = fst (Response_Unmarshal_Stats rsp)).
Proof.
  cbn zeta. split_all.
  - cbn. destruct (closed c); [congruence | reflexivity].
  - destruct (Response_Err rsp) eqn:He;
      [rewrite (Pause_failed c rsp _ He) | rewrite (Pause_ok c rsp He)]; cbn; tauto.
  - destruct (Response_Err rsp) eqn:He;
      [rewrite (Pause_failed c rsp _ He) | rewrite (Pause_ok c rsp He)]; reflexivity.
  - intros Hok. rewrite (Pause_ok c rsp Hok). split; reflexivity.
  - destruct (Response_Err rsp) eqn:He;
      [rewrite (Resume_failed c rsp _ He) | rewrite (Resume_ok c rsp He)]; cbn; tauto.
  - destruct (Response_Err rsp) eqn:He;
      [rewrite (Resume_failed c rsp _ He) | rewrite (Resume_ok c rsp He)]; reflexivity.
  - intros Hok. rewrite (Resume_ok c rsp Hok). split; reflexivity.
  - intros p. unfold SetPriority.
    destruct (Response_Unmarshal_Priority rsp) eqn:Hu; run_exec;
      split_all; solve [reflexivity | tauto].
  - unfold UnsetPriority, SetPriority.
    destruct (Response_Unmarshal_Priority rsp) eqn:Hu; run_exec; tauto.
  - intros layers. unfold SetPreferredLayers. cbn.
    destruct (Response_Unmarshal_Layers rsp (preferredLayers c)); cbn;
      split_all; solve [reflexivity | tauto].
  - cbn. tauto.
  - reflexivity.
  - intros types. destruct types; cbn; split; solve [reflexivity | tauto].
  - unfold Dump. cbn. destruct (Response_Unmarshal_Dump rsp); cbn; tauto.
  - unfold Dump. cbn. destruct (Response_Unmarshal_Dump rsp); reflexivity.
  - unfold GetStats. cbn. destruct (Response_Unmarshal_Stats rsp); cbn; tauto.
  - unfold GetStats. cbn. destruct (Response_Unmarshal_Stats rsp); reflexivity.
Qed.

End ClosedCalls.

(** ** Interleaved calls *)

Section Interleaving.
Context `{Ext : Externals}.

Ltac prove_readonly :=
  repeat (cbn;
          match goal with
          | |- readonly (Ret _) => apply readonly_Ret
          | |- readonly (Atomic _ _) =>
              apply readonly_Atomic; [intros ?; reflexivity | intros ?]
          | |- readonly ?p =>
              match p with
              | context [match ?x with _ => _ end] => destruct x
              end
          end).

(** Steps of the pool. *)
Lemma step_idle {R} (i : nat) (P : Pool R) :
  (threads P !! i = None \/ exists r, threads P !! i = Some (Ret r)) ->
  step i P = P.
Proof. unfold step. intros [-> | [r ->]]; reflexivity. Qed.

Lemma step_Atomic {R B} (i : nat) (P : Pool R)
    (f : Consumer -> B * Consumer * list Effect) (k : B -> Prog R) :
  threads P !! i = Some (Atomic f k) ->
  step i P =
  {| shared := snd (fst (f (shared P)));
     threads := <[i := k (fst (fst (f (shared P))))]> (threads P);
     trace := trace P ++ snd (f (shared P)) |}.
Proof.
  unfold step. intros ->. destruct (f (shared P)) as [[b c] e]. reflexivity.
Qed.

Lemma run_schedule_app {R} (s1 s2 : list nat) (P : Pool R) :
  run_schedule (s1 ++ s2) P = run_schedule s2 (run_schedule s1 P).
Proof. unfold run_schedule. apply fold_left_app. Qed.

(** The two semantics agree on a call that runs alone. *)
Lemma run_alone {R} (p : Prog R) (c : Consumer) (t : list Effect) :
  exists n : nat,
    run_schedule (repeat 0 n) {| shared := c; threads := [p]; trace := t |} =
    {| shared := state (exec p c);
       threads := [Ret (result (exec p c))];
       trace := t ++ effects (exec p c) |}.
Proof.
  revert c t. induction p as [r | B f k IH]; intros c t.
  - exists 0. cbn. rewrite app_nil_r. reflexivity.
  - cbn. destruct (f c) as [[b c1] e1] eqn:Hf.
    destruct (IH b c1 (t ++ e1)) as [n Hn].
    exists (S n). cbn [repeat run_schedule fold_left].
    unfold run_schedule in Hn. unfold step at 2. cbn. rewrite Hf. cbn.
    rewrite Hn. destruct (exec (k b) c1) as [[a c2] e2]. cbn.
    rewrite app_assoc. reflexivity.
Qed.

(** Both closing calls start with the compare-and-swap on [closed] and do
    nothing else when it fails; when it succeeds the rest only reads. *)
Lemma close_call_guarded (k : CloseCall) :
  exists (f : Consumer -> bool * Consumer * list Effect)
         (rest : bool -> Prog (option error)),
    close_call k = Atomic f rest /\
    (forall c, closed c = 0%N -> f c = (true, set_closed 1 c, [])) /\
    (forall c, closed c <> 0%N -> f c = (false, c, [])) /\
    rest false = Ret None /\
    readonly (rest true).
Proof.
  destruct k as [rsp |]; do 2 eexists; (split; [reflexivity |]); split_all.
  - intros c Hc. cbn. rewrite Hc. reflexivity.
  - intros c Hc. cbn. destruct (closed c); [congruence | reflexivity].
  - reflexivity.
  - prove_readonly.
  - intros c Hc. cbn. rewrite Hc. reflexivity.
  - intros c Hc. cbn. destruct (closed c); [congruence | reflexivity].
  - reflexivity.
  - prove_readonly.
Qed.

Lemma won_first_step (c0 : Consumer) (calls : list CloseCall) (w : nat)
    (first : CloseCall) :
  closed c0 = 0%N ->
  calls !! w = Some first ->
  won c0 calls w first (step w (spawn c0 (map close_call calls))).
Proof.
  intros Hopen Hw.
  destruct (close_call_guarded first) as (f & rest & Hshape & Hwin & _ & _ & Hro).
  assert (Hth : threads (spawn c0 (map close_call calls)) !! w = Some (Atomic f rest)).
  { cbn. rewrite list_lookup_fmap, Hw. cbn. rewrite Hshape. reflexivity. }
  rewrite (step_Atomic _ _ _ _ Hth). cbn. rewrite (Hwin c0 Hopen). cbn.
  assert (Hlt : w < length (map close_call calls)).
  { rewrite length_map. eapply lookup_lt_Some; eauto. }
  constructor; cbn.
  - reflexivity.
  - rewrite length_insert, length_map. reflexivity.
  - exists (rest true). rewrite list_lookup_insert_eq by exact Hlt.
    rewrite Hshape. cbn. rewrite (Hwin c0 Hopen).
    destruct (exec (rest true) (set_closed 1 c0)) as [[a c2] e2]. cbn. auto.
  - intros i k Hne Hi. left.
    rewrite list_lookup_insert_ne by congruence.
    rewrite list_lookup_fmap, Hi. reflexivity.
Qed.

Lemma won_step (c0 : Consumer) (calls : list CloseCall) (w : nat)
    (first : CloseCall) (P : Pool (option error)) (i : nat) :
  won c0 calls w first P -> won c0 calls w first (step i P).
Proof.
  intros [Hsh Hlen (p & Hp & Hro & Hres & Htr) Hlosers].
  destruct (decide (i = w)) as [-> | Hne].
  - (* the winner moves on *)
    destruct Hro as [a | B f k Hf Hk].
    { rewrite step_idle by eauto.
      constructor; [assumption .. | | assumption].
      exists (Ret a). split_all; auto using readonly_Ret. }
    rewrite (step_Atomic _ _ _ _ Hp).
    assert (Hlt : w < length (threads P)) by (eapply lookup_lt_Some; eauto).
    cbn in Hres, Htr. specialize (Hf (shared P)).
    destruct (f (shared P)) as [[b c1] e1]. cbn in Hf. subst c1.
    destruct (exec (k b) (shared P)) as [[a c2] e2] eqn:Hex. cbn in Hres, Htr.
    constructor; cbn.
    + exact Hsh.
    + rewrite length_insert. exact Hlen.
    + exists (k b). rewrite list_lookup_insert_eq by exact Hlt.
      rewrite Hex. cbn. rewrite <- app_assoc. auto.
    + intros j kj Hj Hcall. rewrite list_lookup_insert_ne by congruence. eauto.
  - (* another call: its compare-and-swap fails *)
    destruct (calls !! i) as [k |] eqn:Hcall.
    2:{ rewrite step_idle; [constructor; eauto 6 |]. left.
        apply lookup_ge_None. rewrite Hlen. apply lookup_ge_None. exact Hcall. }
    destruct (Hlosers i k Hne Hcall) as [Hi | Hi].
    2:{ rewrite step_idle by eauto. constructor; eauto 6. }
    destruct (close_call_guarded k) as (f & rest & Hshape & _ & Hlose & Hnil & _).
    rewrite Hshape in Hi. rewrite (step_Atomic _ _ _ _ Hi).
    assert (Hclosed : closed (shared P) <> 0%N) by (rewrite Hsh; discriminate).
    rewrite (Hlose _ Hclosed). cbn. rewrite app_nil_r, Hnil.
    constructor; cbn.
    + exact Hsh.
    + rewrite length_insert. exact Hlen.
    + exists p. rewrite list_lookup_insert_ne by congruence. auto.
    + intros j kj Hj Hcj. destruct (decide (j = i)) as [-> | Hji].
      * right. apply list_lookup_insert_eq. eapply lookup_lt_Some; eauto.
      * rewrite list_lookup_insert_ne by congruence. eauto.
Qed.

Lemma won_run (c0 : Consumer) (calls : list CloseCall) (w : nat)
    (first : CloseCall) (s : list nat) (P : Pool (option error)) :
  won c0 calls w first P -> won c0 calls w first (run_schedule s P).
Proof.
  revert P. induction s as [| i s IH]; intros P HP; cbn.
  - exact HP.
  - apply IH, won_step, HP.
Qed.

Lemma close_call_open (c : Consumer) (k : CloseCall) :
  closed c = 0%N ->
  effects (exec (close_call k) c) = close_call_effects c k.
Proof.
  intros Hopen. destruct k as [rsp |]; cbn [close_call close_call_effects].
  - rewrite (Close_open c rsp Hopen). reflexivity.
  - rewrite exec_bind, (transportClosed_open c Hopen).
    cbn -[transportClosed_effects]. apply app_nil_r.
Qed.

Lemma close_call_effects_counts (c : Consumer) (k : CloseCall) :
  occurrences (requests "transport.closeConsumer") (close_call_effects c k) =
    match k with Call_Close _ => 1 | Call_transportClosed => 0 end /\
  occurrences channel_unsubscribes (close_call_effects c k) = 1 /\
  occurrences payloadChannel_unsubscribes (close_call_effects c k) = 1 /\
  occurrences (observer_emits "close") (close_call_effects c k) = 1.
Proof.
  destruct k as [rsp |]; cbn; unfold Close_effects, transportClosed_effects;
    destruct (onClose c), (onTransportClose c); try destruct (Response_Err rsp);
    cbn; auto.
Qed.

(** The first index of a schedule that names a call. *)
Lemma schedule_first (n : nat) (s : list nat) :
  Forall (fun i => n <= i) s \/
  exists s1 w s2, s = s1 ++ w :: s2 /\ Forall (fun i => n <= i) s1 /\ w < n.
Proof.
  induction s as [| i s IH].
  - left. constructor.
  - destruct (le_lt_dec n i) as [Hge | Hlt].
    + destruct IH as [Hall | (s1 & w & s2 & -> & Hs1 & Hw)].
      * left. constructor; assumption.
      * right. exists (i :: s1), w, s2. split_all; auto.
    + right. exists [], i, s. split_all; auto.
Qed.

Lemma run_not_started {R} (s : list nat) (P : Pool R) :
  Forall (fun i => length (threads P) <= i) s -> run_schedule s P = P.
Proof.
  induction 1 as [| i s Hi _ IH]; cbn; [reflexivity |].
  rewrite step_idle; [exact IH |]. left. apply lookup_ge_None. exact Hi.
Qed.

Lemma finished_lookup {R} (P : Pool R) (i : nat) (p : Prog R) :
  finished P = true -> threads P !! i = Some p -> exists r, p = Ret r.
Proof.
  unfold finished. rewrite forallb_forall. intros Hall Hi.
  assert (Hr : returned p = true).
  { apply Hall, list_elem_of_In. eapply list_elem_of_lookup_2; eauto. }
  destruct p; [eauto | discriminate].
Qed.

(** Where a finished pool of closing calls on an open consumer ends up. *)
Lemma close_pool_outcome (c : Consumer) (calls : list CloseCall) (s : list nat) :
  closed c = 0%N -> calls <> [] ->
  let P := run_schedule s (spawn c (map close_call calls)) in
  finished P = true ->
  exists (w : nat) (first : CloseCall) (s1 s2 : list nat),
    s = s1 ++ w :: s2 /\ Forall (fun i => length calls <= i) s1 /\
    calls !! w = Some first /\
    trace P = close_call_effects c first /\
    shared P = set_closed 1 c /\
    threads P !! w = Some (Ret (result (exec (close_call first) c))) /\
    (forall i, i <> w -> i < length calls -> threads P !! i = Some (Ret None)).
Proof.
  intros Hopen Hmany. cbn zeta.
  set (P0 := spawn c (map close_call calls)) in *. intros Hdone.
  destruct (schedule_first (length calls) s)
    as [Hnone | (s1 & w & s2 & -> & Hs1 & Hw)].
  { (* no call ever ran: the pool cannot be finished *)
    rewrite run_not_started in Hdone
      by (subst P0; cbn; rewrite length_map; exact Hnone).
    destruct calls as [| k calls]; [congruence |].
    destruct (close_call_guarded k) as (f & rest & Hshape & _).
    subst P0. cbn in Hdone. rewrite Hshape in Hdone. discriminate. }
  destruct (lookup_lt_is_Some_2 calls w Hw) as [first Hfirst].
  assert (Hrun : run_schedule (s1 ++ w :: s2) P0 = run_schedule s2 (step w P0)).
  { rewrite run_schedule_app, (run_not_started s1 P0); [reflexivity |].
    subst P0. cbn. rewrite length_map. exact Hs1. }
  rewrite Hrun in *. clear Hrun.
  pose proof (won_run c calls w first s2 _ (won_first_step c calls w first Hopen Hfirst))
    as [Hsh Hlen (p & Hp & Hro & Hres & Htr) Hlosers].
  fold P0 in Hsh, Hlen, Hp, Hres, Htr, Hlosers.
  set (P := run_schedule s2 (step w P0)) in *.
  destruct (finished_lookup P w p Hdone Hp) as [r ->].
  cbn in Hres, Htr. rewrite app_nil_r in Htr.
  exists w, first, s1, s2. split_all; auto.
  - rewrite Htr. apply close_call_open, Hopen.
  - rewrite Hp, Hres. reflexivity.
  - intros i Hne Hi.
    destruct (lookup_lt_is_Some_2 calls i Hi) as [k Hk].
    destruct (Hlosers i k Hne Hk) as [Hrun | Hret]; [| exact Hret].
    destruct (finished_lookup P i _ Hdone Hrun) as [r' Hr'].
    destruct (close_call_guarded k) as (f & rest & Hshape & _).
    rewrite Hshape in Hr'. discriminate.
Qed.

(** C1. Calls to [Close] and [transportClosed] on one open consumer,
    interleaved in any way and all run to the end: the call whose
    compare-and-swap is scheduled first is the only one with side effects.
    The trace of the whole pool is the trace of that call run alone: one
    "transport.closeConsumer" request if it is a [Close] and none if it is
    [transportClosed], one [Unsubscribe] on each channel, one observer
    "close".  Every other call changes nothing and returns nil. *)
Theorem close_exactly_once (c : Consumer) (calls : list CloseCall) (s : list nat)
    (Hopen : closed c = 0%N) (Hmany : 1 < length calls)
    (Hdone : finished (run_schedule s (spawn c (map close_call calls))) = true) :
  let P := run_schedule s (spawn c (map close_call calls)) in
  exists (w : nat) (first : CloseCall) (s1 s2 : list nat),
    s = s1 ++ w :: s2 /\ Forall (fun i => length calls <= i) s1 /\
    calls !! w = Some first /\
    trace P = effects (exec (close_call first) c) /\
    trace P = close_call_effects c first /\
    shared P = set_closed 1 c /\
    threads P !! w = Some (Ret (result (exec (close_call first) c))) /\
    (forall i, i <> w -> i < length calls -> threads P !! i = Some (Ret None)) /\
    occurrences (requests "transport.closeConsumer") (trace P) =
      match first with Call_Close _ => 1 | Call_transportClosed => 0 end /\
    occurrences channel_unsubscribes (trace P) = 1 /\
    occurrences payloadChannel_unsubscribes (trace P) = 1 /\
    occurrences (observer_emits "close") (trace P) = 1.
Proof.
  assert (Hne : calls <> []) by (intros ->; cbn in Hmany; lia).
  destruct (close_pool_outcome c calls s Hopen Hne Hdone)
    as (w & first & s1 & s2 & Hs & Hs1 & Hfirst & Htrace & Hsh & Hw & Hothers).
  destruct (close_call_effects_counts c first) as (Hc1 & Hc2 & Hc3 & Hc4).
  cbn zeta. exists w, first, s1, s2. rewrite Htrace.
  split_all; auto. symmetry. apply close_call_open, Hopen.
Qed.

(** Closing calls on a closed consumer, one after the other, do nothing. *)
Lemma run_serial_closed (c : Consumer) (calls : list CloseCall) :
  closed c <> 0%N -> run_serial (map close_call calls) c = (c, []).
Proof.
  intros Hclosed. induction calls as [| k calls IH]; cbn [map run_serial].
  - reflexivity.
  - assert (Hk : exec (close_call k) c = (None, c, [])).
    { destruct k as [rsp |]; cbn [close_call].
      - apply Close_closed, Hclosed.
      - rewrite exec_bind, (transportClosed_closed c Hclosed). reflexivity. }
    rewrite Hk. cbn. rewrite IH. reflexivity.
Qed.

(** On a consumer that is already closed no closing call does anything,
    however the calls are interleaved. *)
Lemma close_pool_closed (c : Consumer) (calls : list CloseCall) (s : list nat) :
  closed c <> 0%N ->
  let P := run_schedule s (spawn c (map close_call calls)) in
  shared P = c /\ trace P = [] /\
  Forall (fun p => (exists k, p = close_call k) \/ p = Ret None) (threads P).
Proof.
  intros Hclosed. cbn zeta.
  assert (Hinit : Forall (fun p => (exists k, p = close_call k) \/ p = Ret None)
                    (threads (spawn c (map close_call calls)))).
  { cbn. apply Forall_forall. intros p Hp.
    apply list_elem_of_fmap_1 in Hp as (k & -> & _). left. eauto. }
  assert (Hsh : shared (spawn c (map close_call calls)) = c) by reflexivity.
  assert (Htr : trace (spawn c (map close_call calls)) = []) by reflexivity.
  revert Hinit Hsh Htr. generalize (spawn c (map close_call calls)) as P.
  induction s as [| i s IH]; intros P Hall Hsh Htr; cbn.
  - auto.
  - destruct (threads P !! i) as [p |] eqn:Hi.
    2:{ rewrite step_idle by auto. apply IH; assumption. }
    destruct (Forall_lookup_1 _ _ i p Hall Hi) as [[k ->] | ->].
    2:{ rewrite step_idle by eauto. apply IH; assumption. }
    destruct (close_call_guarded k) as (f & rest & Hshape & _ & Hlose & Hnil & _).
    rewrite Hshape in Hi. rewrite (step_Atomic _ _ _ _ Hi).
    rewrite Hlose by (rewrite Hsh; exact Hclosed). cbn.
    apply IH; cbn.
    + apply Forall_insert; [exact Hall |]. right. exact Hnil.
    + exact Hsh.
    + rewrite app_nil_r. exact Htr.
Qed.

(** The calls made one after the other: only the first does anything. *)
Lemma close_calls_in_sequence (c : Consumer) (k : CloseCall) (calls : list CloseCall) :
  closed c = 0%N ->
  run_serial (map close_call (k :: calls)) c = (set_closed 1 c, close_call_effects c k).
Proof.
  intros Hopen. cbn [map run_serial].
  assert (Hst : state (exec (close_call k) c) = set_closed 1 c).
  { destruct k as [rsp |]; cbn [close_call].
    - rewrite (Close_open c rsp Hopen). reflexivity.
    - rewrite exec_bind, (transportClosed_open c Hopen). reflexivity. }
  rewrite Hst, (close_call_open c k Hopen).
  rewrite run_serial_closed by discriminate.
  rewrite app_nil_r. reflexivity.
Qed.

Lemma close_call_open_state (c : Consumer) (k : CloseCall) :
  closed c = 0%N -> state (exec (close_call k) c) = set_closed 1 c.
Proof.
  intros Hopen. destruct k as [rsp |]; cbn [close_call].
  - rewrite (Close_open c rsp Hopen). reflexivity.
  - rewrite exec_bind, (transportClosed_open c Hopen). reflexivity.
Qed.

Lemma observer_pause_resume_on_change (c : Consumer) (o : PauseOp) :
  let r := exec (pause_op o) c in
  occurrences (observer_emits "pause") (effects r) =
    (if negb (effectivelyPaused c) && effectivelyPaused (state r) then 1 else 0) /\
  occurrences (observer_emits "resume") (effects r) =
    (if effectivelyPaused c && negb (effectivelyPaused (state r)) then 1 else 0).
Proof.
  cbn zeta. unfold effectivelyPaused.
  destruct o as [rsp | rsp | data | data]; cbn [pause_op].
  - destruct (Response_Err rsp) as [e |] eqn:He;
      [rewrite (Pause_failed c rsp e He) | rewrite (Pause_ok c rsp He)];
      unfold effectivelyPaused;
      destruct (paused c) eqn:Hp, (producerPaused c) eqn:Hpp, (onPause c) eqn:Hh;
      run_exec; auto.
  - destruct (Response_Err rsp) as [e |] eqn:He;
      [rewrite (Resume_failed c rsp e He) | rewrite (Resume_ok c rsp He)];
      unfold effectivelyPaused;
      destruct (paused c) eqn:Hp, (producerPaused c) eqn:Hpp, (onResume c) eqn:Hh;
      run_exec; auto.
  - destruct (paused c) eqn:Hp, (producerPaused c) eqn:Hpp,
      (onProducerPause c) eqn:H1, (onPause c) eqn:H2; run_exec; auto.
  - destruct (paused c) eqn:Hp, (producerPaused c) eqn:Hpp,
      (onProducerResume c) eqn:H1, (onResume c) eqn:H2; run_exec; auto.
Qed.

(** C7, as the code has it.  The consumer has no lock.  The closed flag is
    tested and set by one atomic compare-and-swap, so interleaved closing
    calls always end like one of their serial orders.
    The pause flags are read and written in separate accesses: a [Pause], a
    [Resume] or a "producerpause"/"producerresume" handler that runs with
    nothing interleaved fires the observer's "pause" ("resume") exactly when
    [paused || producerPaused] goes from false to true (true to false). *)
Theorem closed_flag_atomic_pause_flags_unlocked (c : Consumer) :
  (forall calls : list CloseCall, serializable c (map close_call calls)) /\
  (forall o : PauseOp,
     let r := exec (pause_op o) c in
     occurrences (observer_emits "pause") (effects r) =
       (if negb (effectivelyPaused c) && effectivelyPaused (state r) then 1 else 0) /\
     occurrences (observer_emits "resume") (effects r) =
       (if effectivelyPaused c && negb (effectivelyPaused (state r)) then 1 else 0)).
Proof.
  split; [| apply observer_pause_resume_on_change].
  intros calls s. cbn zeta. intros Hdone.
  destruct (N.eq_dec (closed c) 0%N) as [Hopen | Hclosed].
  2:{ destruct (close_pool_closed c calls s Hclosed) as (Hsh & Htr & _).
      exists (map close_call calls). split; [reflexivity |].
      rewrite (run_serial_closed c calls Hclosed), Hsh, Htr. reflexivity. }
  destruct calls as [| k0 calls0] eqn:Hcalls.
  { exists []. split; [constructor |].
    rewrite run_not_started; [reflexivity |].
    cbn. apply Forall_forall. intros; lia. }
  rewrite <- Hcalls in *.
  assert (Hne : calls <> []) by (rewrite Hcalls; discriminate).
  destruct (close_pool_outcome c calls s Hopen Hne Hdone)
    as (w & first & s1 & s2 & Hs & Hs1 & Hfirst & Htrace & Hsh & Hw & Hothers).
  exists (map close_call (first :: delete w calls)). split.
  - apply Permutation_map. symmetry. apply delete_Permutation, Hfirst.
  - cbn [map run_serial].
    rewrite (close_call_open_state c first Hopen), (close_call_open c first Hopen).
    rewrite run_serial_closed by discriminate.
    rewrite app_nil_r, Htrace, Hsh. reflexivity.
Qed.

End Interleaving.

(** ** Concrete runs

    The statements above, and the two places where the code departs from
    its description, on the stand-in collaborators of [Sample]. *)

(** C2 as stated fails: [Close] hands the failure of its request back to
    the caller. *)
Lemma Close_returns_request_failure :
  closed (Sample.consumer false false) = 0%N /\
  Response_Err (Sample.failed "worker closed") = Some "worker closed" /\
  result (exec (Close (Sample.failed "worker closed")) (Sample.consumer false false))
    <> None.
Proof. split_all; [reflexivity | reflexivity | discriminate]. Qed.

(** [Close_failed_request] on a fresh consumer whose worker has gone away. *)
Lemma Close_failed_request_witness :
  closed (Sample.consumer false false) = 0%N /\
  Response_Err (Sample.failed "worker closed") = Some "worker closed" /\
  result (exec (Close (Sample.failed "worker closed")) (Sample.consumer false false))
    = Some "worker closed" /\
  result (exec Closed
            (state (exec (Close (Sample.failed "worker closed"))
                         (Sample.consumer false false)))) = true /\
  In (SafeEmit Observer "close" [])
     (effects (exec (Close (Sample.failed "worker closed")) (Sample.consumer false false))).
Proof.
  destruct (Close_failed_request (Sample.consumer false false)
              (Sample.failed "worker closed") "worker closed" eq_refl eq_refl)
    as (Hres & _ & _ & Hclosed & _ & _ & Hemit).
  split_all; [reflexivity | reflexivity | exact Hres | exact Hclosed | exact Hemit].
Defined.

(** [Resume_spec] on a locally paused consumer, and on one whose producer
    is paused. *)
Lemma Resume_spec_witness :
  Response_Err Sample.ok = None /\
  In (SafeEmit Observer "resume" [])
     (effects (exec (Resume Sample.ok) (Sample.consumer true false))) /\
  producerPaused (Sample.consumer false true) = true /\
  occurrences (observer_emits "pause")
    (effects (exec (Pause Sample.ok ;; Resume Sample.ok) (Sample.consumer false true))) = 0 /\
  occurrences (observer_emits "resume")
    (effects (exec (Pause Sample.ok ;; Resume Sample.ok) (Sample.consumer false true))) = 0.
Proof.
  destruct (Resume_spec (Sample.consumer true false) Sample.ok eq_refl)
    as [(_ & _ & _ & Hemit & _) _].
  destruct (Resume_spec (Sample.consumer false true) Sample.ok eq_refl)
    as [_ Hpair].
  destruct (Hpair eq_refl Sample.ok Sample.ok) as (Hp & Hr & _).
  split_all; [reflexivity | | reflexivity | exact Hp | exact Hr].
  apply Hemit. split; reflexivity.
Defined.

(** [unknown_event_ignored] on a notification tagged "keyframe". *)
Lemma unknown_event_ignored_witness :
  ~ In "keyframe" known_events /\
  state (exec (channel_listener "keyframe" []) (Sample.consumer false false))
    = Sample.consumer false false /\
  occurrences is_emission
    (effects (exec (channel_listener "keyframe" []) (Sample.consumer false false))) = 0.
Proof.
  assert (Hunknown : ~ In "keyframe" known_events).
  { cbn. intros H. repeat destruct H as [H | H]; try discriminate H. exact H. }
  destruct (unknown_event_ignored (Sample.consumer false false) "keyframe" [] Hunknown)
    as (_ & Hstate & _ & Hnone & _).
  split_all; [exact Hunknown | exact Hstate | exact Hnone].
Defined.

(** [score_replaced_and_default] on the stand-in decoder. *)
Lemma score_replaced_and_default_witness :
  json_Unmarshal_Score Sample.score_data =
    inr (Some {| Score := 5; ProducerScore := 7; ProducerScores := [7; 3]%N |}) /\
  result (exec Consumer_Score
            (state (exec (channel_listener "score" Sample.score_data)
                         (Sample.consumer false false)))) =
    Some {| Score := 5; ProducerScore := 7; ProducerScores := [7; 3]%N |} /\
  params_score (Sample.params false false) = None /\
  result (exec Consumer_Score (fst (newConsumer (Sample.params false false)))) =
    Some {| Score := 10; ProducerScore := 10; ProducerScores := [] |}.
Proof.
  destruct (@score_replaced_and_default Sample.externals) as (Hfixed & _ & Hdefault).
  split_all; [reflexivity | | reflexivity |].
  - apply (Hfixed (Sample.consumer false false) Sample.score_data). reflexivity.
  - apply (Hdefault (Sample.params false false)). reflexivity.
Defined.

(** [closed_consumer_still_requests] on a consumer whose transport was
    closed. *)
Lemma closed_consumer_still_requests_witness :
  closed (state (exec transportClosed (Sample.consumer false false))) <> 0%N /\
  result (exec (Pause Sample.ok)
            (state (exec transportClosed (Sample.consumer false false)))) = None /\
  paused (state (exec (Pause Sample.ok)
                   (state (exec transportClosed (Sample.consumer false false))))) = true.
Proof.
  assert (Hclosed : closed (state (exec transportClosed (Sample.consumer false false)))
                    <> 0%N) by discriminate.
  destruct (@closed_consumer_still_requests Sample.externals _ Sample.ok Hclosed)
    as (_ & (_ & Hres & Hok) & _).
  split_all; [exact Hclosed | exact Hres | apply Hok; reflexivity].
Defined.

(** [close_exactly_once] on three closing calls racing for the flag. *)
Lemma close_exactly_once_witness :
  closed (Sample.consumer false false) = 0%N /\
  1 < length Sample.closing_calls /\
  finished (run_schedule Sample.closing_schedule
              (spawn (Sample.consumer false false)
                     (map close_call Sample.closing_calls))) = true /\
  occurrences channel_unsubscribes
    (trace (run_schedule Sample.closing_schedule
              (spawn (Sample.consumer false false)
                     (map close_call Sample.closing_calls)))) = 1.
Proof.
  assert (Hmany : 1 < length Sample.closing_calls) by (cbn; lia).
  destruct (close_exactly_once (Sample.consumer false false) Sample.closing_calls
              Sample.closing_schedule eq_refl Hmany eq_refl)
    as (w & first & s1 & s2 & _ & _ & _ & _ & _ & _ & _ & _ & _ & Hunsub & _).
  split_all; [reflexivity | exact Hmany | reflexivity | exact Hunsub].
Defined.

(** C7 as stated fails.  A "producerpause" handled while [Pause] waits for
    its response: the pool ends in a way no serial order of the two calls
    does, with the observer's "pause" fired twice. *)
Lemma Pause_check_and_write_are_split :
  finished (run_schedule Sample.racing_schedule
              (spawn (Sample.consumer false false) Sample.racing_calls)) = true /\
  occurrences (observer_emits "pause")
    (trace (run_schedule Sample.racing_schedule
              (spawn (Sample.consumer false false) Sample.racing_calls))) = 2 /\
  ~ serializable (Sample.consumer false false) Sample.racing_calls.
Proof.
  split_all; [reflexivity | reflexivity |].
  intros Hser.
  destruct (Hser Sample.racing_schedule eq_refl) as (order & Hperm & Heq).
  symmetry in Hperm. apply Permutation_length_2_inv in Hperm.
  destruct Hperm as [-> | ->]; vm_compute in Heq; discriminate Heq.
Qed.

(** [closed_flag_atomic_pause_flags_unlocked] on a fresh consumer. *)
Lemma closed_flag_atomic_pause_flags_unlocked_witness :
  serializable (Sample.consumer false false) (map close_call Sample.closing_calls) /\
  occurrences (observer_emits "pause")
    (effects (exec (pause_op (Op_Pause Sample.ok)) (Sample.consumer false false))) = 1.
Proof.
  destruct (closed_flag_atomic_pause_flags_unlocked (Sample.consumer false false))
    as [Hclosers Hpause].
  split_all; [apply Hclosers |].
  exact (proj1 (Hpause (Op_Pause Sample.ok))).
Defined.

(** ** What each listener branch and each parameter request does *)

Section Branches.
Context `{Ext : Externals}.

Lemma producerclose_open (c : Consumer) (data : list Byte.byte) :
  closed c = 0%N ->
  exec (channel_listener "producerclose" data) c =
  (tt, set_closed 1 c, producerclose_effects c).
Proof.
  intros Hopen. unfold producerclose_effects.
  destruct (onProducerClose c) as [h |] eqn:Hh, (onClose c) as [h' |] eqn:Hh';
    run_exec; reflexivity.
Qed.

Lemma producerclose_closed (c : Consumer) (data : list Byte.byte) :
  closed c <> 0%N ->
  exec (channel_listener "producerclose" data) c = (tt, c, []).
Proof.
  intros Hclosed. cbn. destruct (closed c); [congruence | reflexivity].
Qed.

Lemma producerpause_exec (c : Consumer) (data : list Byte.byte) :
  exec (channel_listener "producerpause" data) c =
  if producerPaused c then (tt, c, [])
  else (tt, set_producerPaused true c,
        SafeEmit Public "producerpause" [] :: handler_call (onProducerPause c) []
        ++ (if paused c then []
            else SafeEmit Observer "pause" [] :: handler_call (onPause c) [])).
Proof.
  destruct (producerPaused c) eqn:Hpp, (paused c) eqn:Hp,
    (onProducerPause c) eqn:H1, (onPause c) eqn:H2; run_exec; reflexivity.
Qed.

Lemma producerresume_exec (c : Consumer) (data : list Byte.byte) :
  exec (channel_listener "producerresume" data) c =
  if producerPaused c
  then (tt, set_producerPaused false c,
        SafeEmit Public "producerresume" [] :: handler_call (onProducerResume c) []
        ++ (if paused c then []
            else SafeEmit Observer "resume" [] :: handler_call (onResume c) []))
  else (tt, c, []).
Proof.
  destruct (producerPaused c) eqn:Hpp, (paused c) eqn:Hp,
    (onProducerResume c) eqn:H1, (onResume c) eqn:H2; run_exec; reflexivity.
Qed.

Lemma score_exec (c : Consumer) (data : list Byte.byte) :
  exec (channel_listener "score" data) c =
  match json_Unmarshal_Score data with
  | inl err =>
      (tt, c, [Log_Error (Some err) "failed to unmarshal score"
                 [LogString "data"; LogBytes data]])
  | inr s =>
      (tt, set_score s c,
       [SafeEmit Public "score" [ArgScore s];
        SafeEmit Observer "score" [ArgScoreRef s]]
       ++ handler_call (onScore c) [ArgScore s])
  end.
Proof.
  unfold channel_listener. cbn.
  destruct (json_Unmarshal_Score data) as [err | s]; [reflexivity |].
  destruct (onScore c) eqn:Hh; run_exec; reflexivity.
Qed.

Lemma layerschange_exec (c : Consumer) (data : list Byte.byte) :
  exec (channel_listener "layerschange" data) c =
  match json_Unmarshal_Layers data with
  | inl err =>
      (tt, c, [Log_Error (Some err) "failed to unmarshal layers"
                 [LogString "data"; LogBytes data]])
  | inr l =>
      (tt, set_currentLayers l c,
       [SafeEmit Public "layerschange" [ArgLayers l];
        SafeEmit Observer "layerschange" [ArgLayers l]]
       ++ handler_call (onLayersChange c) [ArgLayers l])
  end.
Proof.
  unfold channel_listener. cbn.
  destruct (json_Unmarshal_Layers data) as [err | l]; [reflexivity |].
  destruct (onLayersChange c) eqn:Hh; run_exec; reflexivity.
Qed.

Lemma trace_exec (c : Consumer) (data : list Byte.byte) :
  exec (channel_listener "trace" data) c =
  match json_Unmarshal_Trace data with
  | inl err =>
      (tt, c, [Log_Error (Some err) "failed to unmarshal trace"
                 [LogString "data"; LogBytes data]])
  | inr t =>
      (tt, c,
       [SafeEmit Public "trace" [ArgTrace t];
        SafeEmit Observer "trace" [ArgTrace t]]
       ++ handler_call (onTrace c) [ArgTrace t])
  end.
Proof.
  unfold channel_listener. cbn.
  destruct (json_Unmarshal_Trace data) as [err | t]; [reflexivity |].
  destruct (onTrace c) eqn:Hh; run_exec; reflexivity.
Qed.

Lemma unknown_exec (c : Consumer) (event : string) (data : list Byte.byte) :
  ~ In event known_events ->
  exec (channel_listener event data) c =
  (tt, c, [Log_Error None "ignoring unknown event in channel listener"
             [LogString "event"; LogString event]]).
Proof. intros Hunk. rewrite (unknown_event event data Hunk). reflexivity. Qed.

(** The seven branches of the control-channel listener. *)
Lemma event_cases (event : string) :
  event = "producerclose" \/ event = "producerpause" \/ event = "producerresume" \/
  event = "score" \/ event = "layerschange" \/ event = "trace" \/
  ~ In event known_events.
Proof.
  destruct (in_dec string_dec event known_events) as [Hin | Hout]; [| tauto].
  cbn in Hin. intuition.
Qed.

Lemma rtp_exec (c : Consumer) (data payload : list Byte.byte) :
  exec (payloadChannel_listener "rtp" data payload) c =
  (tt, c,
   if (0 <? closed c)%N then []
   else SafeEmit Public "rtp" [ArgBytes payload]
        :: handler_call (onRtp c) [ArgBytes payload]).
Proof.
  destruct (closed c) eqn:Hc, (onRtp c) eqn:Hh; run_exec; reflexivity.
Qed.

Lemma payload_unknown_exec (c : Consumer) (event : string)
    (data payload : list Byte.byte) :
  event <> "rtp" ->
  exec (payloadChannel_listener event data payload) c =
  (tt, c, [Log_Error None "ignoring unknown event in payload channel listener"
             [LogString "event"; LogString event]]).
Proof.
  intros Hne. unfold payloadChannel_listener.
  apply String.eqb_neq in Hne. rewrite Hne. reflexivity.
Qed.

Lemma SetPriority_exec (c : Consumer) (p : N) (rsp : workerResponse) :
  exec (SetPriority p rsp) c =
  match Response_Unmarshal_Priority rsp with
  | inl err =>
      (Some err, c,
       [Log_Info "setPriority()" [];
        Channel_Request "consumer.setPriority" (internal c) (ReqPriority p)])
  | inr v =>
      (None, set_priority v c,
       [Log_Info "setPriority()" [];
        Channel_Request "consumer.setPriority" (internal c) (ReqPriority p)])
  end.
Proof.
  unfold SetPriority.
  destruct (Response_Unmarshal_Priority rsp) eqn:Hu; run_exec; reflexivity.
Qed.

Lemma SetPreferredLayers_exec (c : Consumer) (layers : ConsumerLayers)
    (rsp : workerResponse) :
  exec (SetPreferredLayers layers rsp) c =
  (fst (Response_Unmarshal_Layers rsp (preferredLayers c)),
   set_preferredLayers (snd (Response_Unmarshal_Layers rsp (preferredLayers c))) c,
   [Log_Info "setPreferredLayers()" [];
    Channel_Request "consumer.setPreferredLayers" (internal c) (ReqLayers layers)]).
Proof.
  unfold SetPreferredLayers. cbn.
  destruct (Response_Unmarshal_Layers rsp (preferredLayers c)). reflexivity.
Qed.

Lemma Dump_exec (c : Consumer) (rsp : workerResponse) :
  exec (Dump rsp) c =
  ((snd (Response_Unmarshal_Dump rsp), fst (Response_Unmarshal_Dump rsp)), c,
   [Log_Info "dump()" []; Channel_Request "consumer.dump" (internal c) ReqNone]).
Proof.
  unfold Dump. cbn. destruct (Response_Unmarshal_Dump rsp). reflexivity.
Qed.

Lemma GetStats_exec (c : Consumer) (rsp : workerResponse) :
  exec (GetStats rsp) c =
  ((snd (Response_Unmarshal_Stats rsp), fst (Response_Unmarshal_Stats rsp)), c,
   [Log_Info "getStats()" []; Channel_Request "consumer.getStats" (internal c) ReqNone]).
Proof.
  unfold GetStats. cbn. destruct (Response_Unmarshal_Stats rsp). reflexivity.
Qed.

Lemma UnsetPriority_exec (c : Consumer) (rsp : workerResponse) :
  exec (UnsetPriority rsp) c =
  (result (exec (SetPriority 1 rsp) c), state (exec (SetPriority 1 rsp) c),
   Log_Info "unsetPriority()" [] :: effects (exec (SetPriority 1 rsp) c)).
Proof.
  unfold UnsetPriority. rewrite exec_bind. cbn -[SetPriority].
  destruct (exec (SetPriority 1 rsp) c) as [[r c'] e]. reflexivity.
Qed.

End Branches.

(** Case analysis on an action, each case rewritten to what it executes to. *)
Ltac open_closed_flag c :=
  let Hc := fresh "Hc" in
  destruct (N.eq_dec (closed c) 0%N) as [Hc | Hc].

Ltac open_action a c :=
  let rsp := fresh "rsp" in
  let layers := fresh "layers" in
  let p := fresh "p" in
  let types := fresh "types" in
  let event := fresh "event" in
  let data := fresh "data" in
  let payload := fresh "payload" in
  let He := fresh "He" in
  let Hne := fresh "Hne" in
  destruct a as [rsp | | rsp | rsp | rsp | rsp | layers rsp | p rsp | rsp | rsp
                | types rsp | event data | event data payload];
  cbn [act closes]; rewrite ?exec_bind;
  [ open_closed_flag c;
    [ rewrite (Close_open c rsp) by assumption
    | rewrite (Close_closed c rsp) by assumption ]
  | open_closed_flag c;
    [ rewrite (transportClosed_open c) by assumption
    | rewrite (transportClosed_closed c) by assumption ]
  | rewrite Dump_exec
  | rewrite GetStats_exec
  | destruct (Response_Err rsp) eqn:He;
    [ rewrite (Pause_failed c rsp _ He) | rewrite (Pause_ok c rsp He) ]
  | destruct (Response_Err rsp) eqn:He;
    [ rewrite (Resume_failed c rsp _ He) | rewrite (Resume_ok c rsp He) ]
  | rewrite SetPreferredLayers_exec
  | rewrite SetPriority_exec; destruct (Response_Unmarshal_Priority rsp)
  | rewrite UnsetPriority_exec, SetPriority_exec;
    destruct (Response_Unmarshal_Priority rsp)
  | idtac
  | idtac
  | destruct (event_cases event) as [-> | [-> | [-> | [-> | [-> | [-> | Hne]]]]]];
    [ open_closed_flag c;
      [ rewrite (producerclose_open c data) by assumption
      | rewrite (producerclose_closed c data) by assumption ]
    | rewrite producerpause_exec
    | rewrite producerresume_exec
    | rewrite score_exec; destruct (json_Unmarshal_Score data)
    | rewrite layerschange_exec; destruct (json_Unmarshal_Layers data)
    | rewrite trace_exec; destruct (json_Unmarshal_Trace data)
    | rewrite (unknown_exec c event data Hne) ]
  | destruct (string_dec event "rtp") as [-> | Hne];
    [ rewrite rtp_exec
    | rewrite (payload_unknown_exec c event data payload Hne) ] ].

Ltac case_slots :=
  repeat match goal with
         | |- context [handler_call ?slot _] => destruct slot; cbn [handler_call]
         end.

Ltac case_all :=
  repeat (cbn; match goal with
               | |- context [match ?x with _ => _ end] => destruct x eqn:?
               end); cbn.

Ltac case_flags c :=
  unfold effectivelyPaused;
  destruct (paused c) eqn:?, (producerPaused c) eqn:?;
  cbn [andb orb negb].

(** ** Histories: what holds after any sequence of actions *)

Section Histories.
Context `{Ext : Externals}.

Lemma occurrences_app (f : Effect -> bool) (l1 l2 : list Effect) :
  occurrences f (l1 ++ l2) = occurrences f l1 + occurrences f l2.
Proof. induction l1 as [| e l1 IH]; cbn; [reflexivity | rewrite IH; lia]. Qed.

Lemma run_actions_cons (a : Action) (l : list Action) (c : Consumer) :
  run_actions (a :: l) c =
  (fst (run_actions l (state (exec (act a) c))),
   effects (exec (act a) c) ++ snd (run_actions l (state (exec (act a) c)))).
Proof.
  unfold run_actions. cbn [map run_serial].
  destruct (run_serial (map act l) (state (exec (act a) c))). reflexivity.
Qed.

(** One action either leaves [closed] alone or takes it from 0 to 1. *)
Lemma act_closed (a : Action) (c : Consumer) :
  closed (state (exec (act a) c)) = closed c \/
  (closed c = 0%N /\ closed (state (exec (act a) c)) = 1%N).
Proof.
  open_action a c; cbn; auto;
    repeat match goal with
           | |- context [if ?b then _ else _] => destruct b
           end; cbn; auto.
Qed.

(** One action never touches the identity, the negotiated parameters, the
    application data or a callback slot. *)
Lemma act_frame (a : Action) (c : Consumer) :
  let c' := state (exec (act a) c) in
  internal c' = internal c /\ data c' = data c /\ appData c' = appData c /\
  onClose c' = onClose c /\ onProducerClose c' = onProducerClose c /\
  onTransportClose c' = onTransportClose c /\ onPause c' = onPause c /\
  onResume c' = onResume c /\ onProducerPause c' = onProducerPause c /\
  onProducerResume c' = onProducerResume c /\ onScore c' = onScore c /\
  onLayersChange c' = onLayersChange c /\ onTrace c' = onTrace c /\
  onRtp c' = onRtp c.
Proof.
  cbn zeta. open_action a c; cbn;
    repeat match goal with
           | |- context [if ?b then _ else _] => destruct b
           end; cbn; split_all; reflexivity.
Qed.

(** Who writes which field. *)
Lemma act_owner (a : Action) (c : Consumer) :
  let c' := state (exec (act a) c) in
  (from_worker a = true ->
   paused c' = paused c /\ priority c' = priority c /\
   preferredLayers c' = preferredLayers c) /\
  (from_worker a = false ->
   producerPaused c' = producerPaused c /\ score c' = score c /\
   currentLayers c' = currentLayers c).
Proof.
  cbn zeta. open_action a c; cbn; split; intros Hw; try discriminate Hw;
    repeat (cbn; match goal with
                 | |- context [if ?b then _ else _] => destruct b eqn:?
                 end);
    cbn; split_all; reflexivity.
Qed.

End Histories.

(** ** Counting events along an action *)

Section Counting.
Context `{Ext : Externals}.

(** One action fires the observer's "pause" exactly when the consumer goes
    from not paused to paused, and "resume" exactly on the way back. *)
Lemma act_pause_balance (a : Action) (c : Consumer) :
  let r := exec (act a) c in
  occurrences (observer_emits "pause") (effects r) =
    Nat.b2n (negb (effectivelyPaused c) && effectivelyPaused (state r)) /\
  occurrences (observer_emits "resume") (effects r) =
    Nat.b2n (effectivelyPaused c && negb (effectivelyPaused (state r))).
Proof.
  cbn zeta. open_action a c;
    unfold Close_effects, transportClosed_effects, producerclose_effects;
    case_flags c; case_slots; case_all; run_exec; split; reflexivity.
Qed.

(** One action unsubscribes from both channels and fires the observer's
    "close" exactly when it takes [closed] from 0 to 1; and only then can it
    send "transport.closeConsumer". *)
Lemma act_close_count (a : Action) (c : Consumer) :
  let r := exec (act a) c in
  let n := Nat.b2n ((closed c =? 0)%N && negb (closed (state r) =? 0)%N) in
  occurrences channel_unsubscribes (effects r) = n /\
  occurrences payloadChannel_unsubscribes (effects r) = n /\
  occurrences (observer_emits "close") (effects r) = n /\
  occurrences (requests "transport.closeConsumer") (effects r) <= n.
Proof.
  cbn zeta. open_action a c;
    unfold Close_effects, transportClosed_effects, producerclose_effects;
    case_slots; destruct (closed c) eqn:Hcl; try congruence; case_all;
    run_exec; split_all; lia.
Qed.

End Counting.

(** ** Lifetimes: what holds after any history *)

Section Lifetimes.
Context `{Ext : Externals}.


Lemma history_closed (l : list Action) (c : Consumer) :
  closed (fst (run_actions l c)) = closed c \/
  (closed c = 0%N /\ closed (fst (run_actions l c)) = 1%N).
Proof.
  revert c. induction l as [| a l IH]; intros c.
  - left. reflexivity.
  - rewrite run_actions_cons. cbn [fst].
    destruct (IH (state (exec (act a) c))) as [Hl | [Hl0 Hl1]],
      (act_closed a c) as [Ha | [Ha0 Ha1]]; try (left; congruence);
      try (right; split; congruence).
Qed.

Lemma history_internal (l : list Action) (c : Consumer) :
  internal (fst (run_actions l c)) = internal c.
Proof.
  revert c. induction l as [| a l IH]; intros c; [reflexivity |].
  rewrite run_actions_cons. cbn [fst]. rewrite IH. apply act_frame.
Qed.


(** X4. Teardown happens exactly once in a lifetime.  Along any history the
    two channels are each unsubscribed, and the observer's "close" fired,
    once if the history closed the consumer and never otherwise; and
    "transport.closeConsumer" is sent at most once, never without closing. *)
Theorem teardown_exactly_once (l : list Action) (c : Consumer) :
  let c' := fst (run_actions l c) in
  let e := snd (run_actions l c) in
  let n := Nat.b2n ((closed c =? 0)%N && negb (closed c' =? 0)%N) in
  occurrences channel_unsubscribes e = n /\
  occurrences payloadChannel_unsubscribes e = n /\
  occurrences (observer_emits "close") e = n /\
  occurrences (requests "transport.closeConsumer") e <= n.
Proof.
  cbn zeta. revert c. induction l as [| a l IH]; intros c.
  - cbn. rewrite andb_negb_r. auto.
  - rewrite run_actions_cons. cbn [fst snd]. rewrite !occurrences_app.
    destruct (IH (state (exec (act a) c))) as (I1 & I2 & I3 & I4).
    destruct (act_close_count a c) as (A1 & A2 & A3 & A4).
    pose proof (history_closed l (state (exec (act a) c))) as Hl.
    rewrite I1, I2, I3, A1, A2, A3.
    assert (Hsum :
      Nat.b2n ((closed c =? 0)%N && negb (closed (state (exec (act a) c)) =? 0)%N) +
      Nat.b2n ((closed (state (exec (act a) c)) =? 0)%N &&
               negb (closed (fst (run_actions l (state (exec (act a) c)))) =? 0)%N) =
      Nat.b2n ((closed c =? 0)%N &&
               negb (closed (fst (run_actions l (state (exec (act a) c)))) =? 0)%N)).
    { destruct (act_closed a c) as [Hsame | [Hzero Hone]].
      - rewrite Hsame. destruct (closed c =? 0)%N; cbn; lia.
      - rewrite Hzero, Hone. cbn.
        destruct Hl as [Hl | [Hl _]]; [rewrite Hl, Hone; reflexivity | congruence]. }
    split_all; try exact Hsum. lia.
Qed.


(** X6. Each mutable field has one side that writes it.  A history made of
    worker notifications only leaves [paused], [priority] and
    [preferredLayers] as they were; a history made of application calls only
    leaves [producerPaused], [score] and [currentLayers] as they were. *)
Theorem fields_have_one_owner (l : list Action) (c : Consumer) :
  let c' := fst (run_actions l c) in
  (forallb from_worker l = true ->
   paused c' = paused c /\ priority c' = priority c /\
   preferredLayers c' = preferredLayers c) /\
  (forallb (fun a => negb (from_worker a)) l = true ->
   producerPaused c' = producerPaused c /\ score c' = score c /\
   currentLayers c' = currentLayers c).
Proof.
  cbn zeta. revert c. induction l as [| a l IH]; intros c.
  - cbn. auto.
  - rewrite run_actions_cons. cbn [fst forallb].
    destruct (IH (state (exec (act a) c))) as [IW IA].
    destruct (act_owner a c) as [AW AA].
    split; intros Hall; apply andb_prop in Hall as [Ha Hl].
    + destruct (IW Hl) as (? & ? & ?), (AW Ha) as (? & ? & ?).
      split_all; congruence.
    + apply negb_true_iff in Ha.
      destruct (IA Hl) as (? & ? & ?), (AA Ha) as (? & ? & ?).
      split_all; congruence.
Qed.

(** X7. Along any history the observer's "pause" and "resume" events keep
    step with [paused || producerPaused]: the pauses fired, plus one if the
    consumer started paused, are the resumes fired, plus one if it ends
    paused.  (Every prefix of a history is a history, so the two events
    alternate.) *)
Theorem observer_pause_resume_balance (l : list Action) (c : Consumer) :
  let c' := fst (run_actions l c) in
  let e := snd (run_actions l c) in
  occurrences (observer_emits "pause") e + Nat.b2n (effectivelyPaused c) =
  occurrences (observer_emits "resume") e + Nat.b2n (effectivelyPaused c').
Proof.
  cbn zeta. revert c. induction l as [| a l IH]; intros c.
  - reflexivity.
  - rewrite run_actions_cons. cbn [fst snd]. rewrite !occurrences_app.
    specialize (IH (state (exec (act a) c))).
    destruct (act_pause_balance a c) as [Hp Hr]. rewrite Hp, Hr.
    destruct (effectivelyPaused c), (effectivelyPaused (state (exec (act a) c)));
      cbn in *; lia.
Qed.

End Lifetimes.

(** ** Parameter requests and queries *)

Section Requests.
Context `{Ext : Externals}.

(** X18. [UnsetPriority] is [SetPriority(1)] after one more log line: same
    return value, same struct afterwards.  The priority kept is the one the
    worker echoes, not the one asked for; when the response does not decode
    the error is returned and the struct is left as it was. *)
Theorem UnsetPriority_is_SetPriority_1 (c : Consumer) (rsp : workerResponse) :
  let r := exec (UnsetPriority rsp) c in
  let r1 := exec (SetPriority 1 rsp) c in
  result r = result r1 /\ state r = state r1 /\
  effects r = Log_Info "unsetPriority()" [] :: effects r1 /\
  In (Channel_Request "consumer.setPriority" (internal c) (ReqPriority 1)) (effects r) /\
  match Response_Unmarshal_Priority rsp with
  | inl err => result r = Some err /\ state r = c
  | inr v => result r = None /\ state r = set_priority v c /\ priority (state r) = v
  end.
Proof.
  cbn zeta. rewrite UnsetPriority_exec, SetPriority_exec.
  destruct (Response_Unmarshal_Priority rsp); cbn; split_all; auto.
Qed.

(** X19. [EnableTraceEvent] never sends a nil list of types: called without
    types it sends the empty list, exactly as if called with an empty list;
    it returns the response's error and does not touch the struct. *)
Theorem EnableTraceEvent_sends_a_list (c : Consumer)
    (types : option (list ConsumerTraceEventType)) (rsp : workerResponse) :
  let r := exec (EnableTraceEvent types rsp) c in
  effects r =
    [Log_Info "enableTraceEvent()" [];
     Channel_Request "consumer.enableTraceEvent" (internal c)
       (ReqTypes (Some (default [] types)))] /\
  ~ In (Channel_Request "consumer.enableTraceEvent" (internal c) (ReqTypes None))
       (effects r) /\
  exec (EnableTraceEvent None rsp) c = exec (EnableTraceEvent (Some []) rsp) c /\
  result r = Response_Err rsp /\ state r = c.
Proof.
  cbn zeta. destruct types as [t |]; cbn; split_all; auto;
    intros [Hd | [Hd | []]]; congruence.
Qed.

(** X20. The queries [Dump], [GetStats], [RequestKeyFrame] and
    [EnableTraceEvent] send one request each, emit nothing, leave the struct
    as it was, and hand back the error of the response unchanged. *)
Theorem queries_leave_the_consumer_alone (c : Consumer) (rsp : workerResponse)
    (types : option (list ConsumerTraceEventType)) :
  (let r := exec (Dump rsp) c in
   state r = c /\ occurrences is_request (effects r) = 1 /\
   occurrences is_emission (effects r) = 0 /\
   result r = (snd (Response_Unmarshal_Dump rsp), fst (Response_Unmarshal_Dump rsp))) /\
  (let r := exec (GetStats rsp) c in
   state r = c /\ occurrences is_request (effects r) = 1 /\
   occurrences is_emission (effects r) = 0 /\
   result r = (snd (Response_Unmarshal_Stats rsp), fst (Response_Unmarshal_Stats rsp))) /\
  (let r := exec (RequestKeyFrame rsp) c in
   state r = c /\ occurrences is_request (effects r) = 1 /\
   occurrences is_emission (effects r) = 0 /\ result r = Response_Err rsp) /\
  (let r := exec (EnableTraceEvent types rsp) c in
   state r = c /\ occurrences is_request (effects r) = 1 /\
   occurrences is_emission (effects r) = 0 /\ result r = Response_Err rsp).
Proof.
  cbn zeta. rewrite Dump_exec, GetStats_exec.
  destruct types; cbn; split_all; reflexivity.
Qed.

(** X21. [SetPreferredLayers] sends the layers asked for and keeps whatever
    decoding the response leaves in [preferredLayers], also when decoding
    fails; nothing else in the struct changes and nothing is emitted. *)
Theorem SetPreferredLayers_keeps_what_decoding_leaves (c : Consumer)
    (layers : ConsumerLayers) (rsp : workerResponse) :
  let r := exec (SetPreferredLayers layers rsp) c in
  let u := Response_Unmarshal_Layers rsp (preferredLayers c) in
  result r = fst u /\
  state r = set_preferredLayers (snd u) c /\
  preferredLayers (state r) = snd u /\
  currentLayers (state r) = currentLayers c /\
  effects r =
    [Log_Info "setPreferredLayers()" [];
     Channel_Request "consumer.setPreferredLayers" (internal c) (ReqLayers layers)] /\
  occurrences is_emission (effects r) = 0.
Proof.
  cbn zeta. rewrite SetPreferredLayers_exec. cbn. split_all; reflexivity.
Qed.

(** X16. [Pause] then [Resume], both answered with success, on a consumer
    that was not locally paused give the struct back exactly as it was, and
    fire the observer's "pause" and "resume" once each when the producer is
    not paused and not at all when it is.  A second [Pause] in a row fires
    nothing and changes nothing more. *)
Theorem Pause_Resume_round_trip (c : Consumer) (rsp1 rsp2 : workerResponse)
    (Hok1 : Response_Err rsp1 = None) (Hok2 : Response_Err rsp2 = None) :
  (paused c = false ->
   let r := exec (Pause rsp1 ;; Resume rsp2) c in
   state r = c /\
   occurrences (observer_emits "pause") (effects r) = Nat.b2n (negb (producerPaused c)) /\
   occurrences (observer_emits "resume") (effects r) = Nat.b2n (negb (producerPaused c))) /\
  (let r1 := exec (Pause rsp1) c in
   let r2 := exec (Pause rsp2) (state r1) in
   state r2 = state r1 /\
   occurrences is_emission (effects r2) = 0).
Proof.
  split.
  - intros Hp. cbn zeta. rewrite exec_bind, (Pause_ok c rsp1 Hok1).
    cbn [state result effects fst snd].
    rewrite (Resume_ok _ rsp2 Hok2). unfold effectivelyPaused.
    cbn [paused producerPaused set_paused onResume internal].
    rewrite Hp. cbn [orb negb andb state effects fst snd].
    split.
    + destruct c; unfold set_paused; cbn in *; subst; reflexivity.
    + destruct (producerPaused c), (onPause c), (onResume c); cbn; auto.
  - cbn zeta. rewrite (Pause_ok c rsp1 Hok1). cbn [state fst snd].
    rewrite (Pause_ok _ rsp2 Hok2). cbn. auto.
Qed.

End Requests.

(** ** More on the listeners *)

Ltac open_event event data c :=
  let Hne := fresh "Hne" in
  destruct (event_cases event) as [-> | [-> | [-> | [-> | [-> | [-> | Hne]]]]]];
  [ open_closed_flag c;
    [ rewrite (producerclose_open c data) by assumption
    | rewrite (producerclose_closed c data) by assumption ]
  | rewrite producerpause_exec
  | rewrite producerresume_exec
  | rewrite score_exec; destruct (json_Unmarshal_Score data)
  | rewrite layerschange_exec; destruct (json_Unmarshal_Layers data)
  | rewrite trace_exec; destruct (json_Unmarshal_Trace data)
  | rewrite (unknown_exec c event data Hne) ].

Ltac open_payload event data payload c :=
  let Hne := fresh "Hne" in
  destruct (string_dec event "rtp") as [-> | Hne];
  [ rewrite rtp_exec
  | rewrite (payload_unknown_exec c event data payload Hne) ].

Section Listeners.
Context `{Ext : Externals}.

(** X10. A "producerclose" notification closes an open consumer without
    asking the worker anything: [closed] becomes 1, both channels are
    unsubscribed, "@producerclose" and "producerclose" go out on the
    consumer's emitter before its listeners are removed, then the observer's
    "close"; on a consumer that is already closed it does nothing at all. *)
Theorem producerclose_closes_without_request (c : Consumer) (data : list Byte.byte) :
  let r := exec (channel_listener "producerclose" data) c in
  occurrences is_request (effects r) = 0 /\
  (closed c = 0%N ->
   state r = set_closed 1 c /\
   result (exec Closed (state r)) = true /\
   effects r =
     [ Channel_Unsubscribe (ConsumerId (internal c));
       PayloadChannel_Unsubscribe (ConsumerId (internal c));
       Emit Public "@producerclose" []; SafeEmit Public "producerclose" [];
       RemoveAllListeners Public ]
     ++ handler_call (onProducerClose c) []
     ++ [ SafeEmit Observer "close" []; RemoveAllListeners Observer ]
     ++ handler_call (onClose c) []) /\
  (closed c <> 0%N -> state r = c /\ effects r = []).
Proof.
  cbn zeta. split_all.
  - destruct (N.eq_dec (closed c) 0%N) as [Hc | Hc].
    + rewrite (producerclose_open c data Hc). unfold producerclose_effects.
      case_slots; reflexivity.
    + rewrite (producerclose_closed c data Hc). reflexivity.
  - intros Hc. rewrite (producerclose_open c data Hc). split_all; reflexivity.
  - intros Hc. rewrite (producerclose_closed c data Hc). split; reflexivity.
Qed.

(** X11. Only the application's calls talk to the worker.  Neither listener
    ever sends a request, whatever the notification, and neither does
    [transportClosed]. *)
Theorem listeners_never_send_requests (c : Consumer) (event : string)
    (data payload : list Byte.byte) :
  occurrences is_request (effects (exec (channel_listener event data) c)) = 0 /\
  occurrences is_request
    (effects (exec (payloadChannel_listener event data payload) c)) = 0 /\
  occurrences is_request (effects (exec transportClosed c)) = 0.
Proof.
  split_all.
  - open_event event data c;
      unfold producerclose_effects; case_slots; case_all; reflexivity.
  - open_payload event data payload c; case_slots; case_all; reflexivity.
  - destruct (N.eq_dec (closed c) 0%N) as [Hc | Hc].
    + rewrite (transportClosed_open c Hc). unfold transportClosed_effects.
      case_slots; reflexivity.
    + rewrite (transportClosed_closed c Hc). reflexivity.
Qed.

(** X13. A "layerschange" notification that decodes replaces
    [currentLayers] by the decoded pointer, nil included, whatever it was
    before; the same value goes out on the consumer's emitter, on the
    observer and to the callback; [preferredLayers] is not touched. *)
Theorem layerschange_replaces_currentLayers (c : Consumer) (data : list Byte.byte)
    (l : option ConsumerLayers) (Hdec : json_Unmarshal_Layers data = inr l) :
  let r := exec (channel_listener "layerschange" data) c in
  state r = set_currentLayers l c /\
  result (exec CurrentLayers (state r)) = l /\
  result (exec PreferredLayers (state r)) = preferredLayers c /\
  effects r =
    [SafeEmit Public "layerschange" [ArgLayers l];
     SafeEmit Observer "layerschange" [ArgLayers l]]
    ++ handler_call (onLayersChange c) [ArgLayers l].
Proof.
  cbn zeta. rewrite layerschange_exec, Hdec. split_all; reflexivity.
Qed.

(** X12. A "score", "layerschange" or "trace" notification whose payload does
    not decode is logged and skipped: the struct is unchanged, nothing is
    emitted, no callback runs, and the next notification is handled as if
    the bad one had not arrived. *)
Theorem malformed_notification_is_skipped (c : Consumer) (event : string)
    (data : list Byte.byte) (err : error)
    (Hbad : event = "score" /\ json_Unmarshal_Score data = inl err \/
            event = "layerschange" /\ json_Unmarshal_Layers data = inl err \/
            event = "trace" /\ json_Unmarshal_Trace data = inl err) :
  let r := exec (channel_listener event data) c in
  state r = c /\
  occurrences is_emission (effects r) = 0 /\
  (exists msg, effects r = [Log_Error (Some err) msg [LogString "data"; LogBytes data]]) /\
  forall (event' : string) (data' : list Byte.byte),
    let next := exec (channel_listener event' data') c in
    let both := exec (channel_listener event data ;; channel_listener event' data') c in
    state both = state next /\ effects both = effects r ++ effects next.
Proof.
  cbn zeta.
  assert (Hr : exists msg, exec (channel_listener event data) c =
                 (tt, c, [Log_Error (Some err) msg [LogString "data"; LogBytes data]])).
  { destruct Hbad as [[-> Hd] | [[-> Hd] | [-> Hd]]].
    - rewrite score_exec, Hd. eauto.
    - rewrite layerschange_exec, Hd. eauto.
    - rewrite trace_exec, Hd. eauto. }
  destruct Hr as [msg Hr]. split_all.
  - rewrite Hr. reflexivity.
  - rewrite Hr. reflexivity.
  - exists msg. rewrite Hr. reflexivity.
  - intros event' data'. rewrite exec_bind, Hr. cbn. split; reflexivity.
Qed.

(** X14. A "trace" notification never changes the struct; when it decodes,
    the decoded trace goes out on the consumer's emitter, on the observer
    and to the callback, in that order, and when it does not, one error is
    logged. *)
Theorem trace_never_mutates (c : Consumer) (data : list Byte.byte) :
  let r := exec (channel_listener "trace" data) c in
  state r = c /\
  effects r =
    match json_Unmarshal_Trace data with
    | inr t =>
        [SafeEmit Public "trace" [ArgTrace t]; SafeEmit Observer "trace" [ArgTrace t]]
        ++ handler_call (onTrace c) [ArgTrace t]
    | inl err =>
        [Log_Error (Some err) "failed to unmarshal trace"
           [LogString "data"; LogBytes data]]
    end.
Proof.
  cbn zeta. rewrite trace_exec.
  destruct (json_Unmarshal_Trace data) as [e | t]; split; reflexivity.
Qed.

(** X15. The payload-channel listener never changes the struct.  On an open
    consumer an "rtp" event hands the payload, unchanged, to the "rtp"
    listeners and then to the callback; any other event is logged and
    dropped, open or closed. *)
Theorem payload_listener_spec (c : Consumer) (event : string)
    (data payload : list Byte.byte) :
  let r := exec (payloadChannel_listener event data payload) c in
  state r = c /\
  (event = "rtp" -> closed c = 0%N ->
   effects r = SafeEmit Public "rtp" [ArgBytes payload]
               :: handler_call (onRtp c) [ArgBytes payload]) /\
  (event <> "rtp" ->
   effects r = [Log_Error None "ignoring unknown event in payload channel listener"
                  [LogString "event"; LogString event]]).
Proof.
  cbn zeta. open_payload event data payload c; split_all; try reflexivity;
    try congruence.
  intros _ Hc. rewrite Hc. reflexivity.
Qed.

(** X17. "producerpause" then "producerresume" on a consumer whose producer
    was not paused give the struct back exactly as it was; both
    notifications are re-emitted, and the observer sees a "pause" and a
    "resume" when the consumer is not locally paused and neither when it
    is. *)
Theorem producerpause_producerresume_round_trip (c : Consumer)
    (data data' : list Byte.byte) (Hpp : producerPaused c = false) :
  let r := exec (channel_listener "producerpause" data ;;
                 channel_listener "producerresume" data') c in
  state r = c /\
  occurrences (public_emits "producerpause") (effects r) = 1 /\
  occurrences (public_emits "producerresume") (effects r) = 1 /\
  occurrences (observer_emits "pause") (effects r) = Nat.b2n (negb (paused c)) /\
  occurrences (observer_emits "resume") (effects r) = Nat.b2n (negb (paused c)).
Proof.
  cbn zeta. rewrite exec_bind, producerpause_exec, Hpp.
  cbn [state result effects fst snd]. rewrite producerresume_exec.
  cbn [producerPaused set_producerPaused paused onProducerResume onResume
       state result effects fst snd].
  split.
  - destruct c; unfold set_producerPaused; cbn in *; subst; reflexivity.
  - destruct (paused c); case_slots; cbn; auto.
Qed.

(** X8. Apart from the three closing paths and the "rtp" payload event, no
    action looks at the closed flag: it does to a closed consumer exactly
    what it does to an open one. *)
Theorem closed_flag_is_ignored (a : Action) (c : Consumer) (v : N)
    (Hnot_closer : closes a = false)
    (Hnot_rtp : forall d p, a <> Do_payload "rtp" d p) :
  exec (act a) (set_closed v c) =
  (tt, set_closed v (state (exec (act a) c)), effects (exec (act a) c)).
Proof.
  destruct a as [rsp | | rsp | rsp | rsp | rsp | layers rsp | p rsp | rsp | rsp
                | types rsp | event data | event data payload];
    cbn [act closes] in *; try discriminate Hnot_closer; rewrite ?exec_bind.
  - rewrite !Dump_exec. reflexivity.
  - rewrite !GetStats_exec. reflexivity.
  - destruct (Response_Err rsp) eqn:He.
    + rewrite !(Pause_failed _ rsp _ He). reflexivity.
    + rewrite !(Pause_ok _ rsp He). reflexivity.
  - destruct (Response_Err rsp) eqn:He.
    + rewrite !(Resume_failed _ rsp _ He). reflexivity.
    + rewrite !(Resume_ok _ rsp He). reflexivity.
  - rewrite !SetPreferredLayers_exec. reflexivity.
  - rewrite !SetPriority_exec.
    destruct (Response_Unmarshal_Priority rsp); reflexivity.
  - rewrite !UnsetPriority_exec, !SetPriority_exec.
    destruct (Response_Unmarshal_Priority rsp); reflexivity.
  - reflexivity.
  - reflexivity.
  - destruct (event_cases event) as [-> | [-> | [-> | [-> | [-> | [-> | Hne]]]]]];
      try discriminate Hnot_closer.
    + rewrite !producerpause_exec. cbn [producerPaused set_closed].
      destruct (producerPaused c); reflexivity.
    + rewrite !producerresume_exec. cbn [producerPaused set_closed].
      destruct (producerPaused c); reflexivity.
    + rewrite !score_exec. destruct (json_Unmarshal_Score data); reflexivity.
    + rewrite !layerschange_exec. destruct (json_Unmarshal_Layers data); reflexivity.
    + rewrite !trace_exec. destruct (json_Unmarshal_Trace data); reflexivity.
    + rewrite !(unknown_exec _ event data Hne). reflexivity.
  - destruct (string_dec event "rtp") as [-> | Hne].
    + exfalso. eapply Hnot_rtp. reflexivity.
    + rewrite !(payload_unknown_exec _ event data payload Hne). reflexivity.
Qed.

End Listeners.

(** ** From construction to teardown *)

Section Lifecycle.
Context `{Ext : Externals}.

(** No action subscribes, and an action that unsubscribes uses the
    consumer's own id as the key. *)
Lemma act_subscription_keys (a : Action) (c : Consumer) (id : string) :
  let e := effects (exec (act a) c) in
  occurrences (channel_subscribes id) e = 0 /\
  occurrences (payloadChannel_subscribes id) e = 0 /\
  occurrences (channel_unsubscribes_key (ConsumerId (internal c))) e =
    occurrences channel_unsubscribes e /\
  occurrences (payloadChannel_unsubscribes_key (ConsumerId (internal c))) e =
    occurrences payloadChannel_unsubscribes e.
Proof.
  cbn zeta. open_action a c;
    unfold Close_effects, transportClosed_effects, producerclose_effects;
    case_slots;
    repeat (progress (cbn; rewrite ?String.eqb_refl)
            || match goal with
               | |- context [match ?x with _ => _ end] => destruct x eqn:?
               end);
    split_all; reflexivity.
Qed.

Lemma history_subscription_keys (l : list Action) (c : Consumer) (id : string) :
  let e := snd (run_actions l c) in
  occurrences (channel_subscribes id) e = 0 /\
  occurrences (payloadChannel_subscribes id) e = 0 /\
  occurrences (channel_unsubscribes_key (ConsumerId (internal c))) e =
    occurrences channel_unsubscribes e /\
  occurrences (payloadChannel_unsubscribes_key (ConsumerId (internal c))) e =
    occurrences payloadChannel_unsubscribes e.
Proof.
  cbn zeta. revert c. induction l as [| a l IH]; intros c.
  - cbn. auto.
  - rewrite run_actions_cons. cbn [snd]. rewrite !occurrences_app.
    destruct (IH (state (exec (act a) c))) as (I1 & I2 & I3 & I4).
    destruct (act_subscription_keys a c id) as (A1 & A2 & A3 & A4).
    assert (Hint : internal (state (exec (act a) c)) = internal c) by apply act_frame.
    rewrite Hint in I3, I4. rewrite I1, I2, I3, I4, A1, A2, A3, A4. auto.
Qed.

Lemma history_close_count (l : list Action) (c : Consumer) :
  let c' := fst (run_actions l c) in
  let e := snd (run_actions l c) in
  let n := Nat.b2n ((closed c =? 0)%N && negb (closed c' =? 0)%N) in
  occurrences channel_unsubscribes e = n /\
  occurrences payloadChannel_unsubscribes e = n.
Proof.
  cbn zeta. revert c. induction l as [| a l IH]; intros c.
  - cbn. rewrite andb_negb_r. auto.
  - rewrite run_actions_cons. cbn [fst snd]. rewrite !occurrences_app.
    destruct (IH (state (exec (act a) c))) as (I1 & I2).
    destruct (act_close_count a c) as (A1 & A2 & _).
    pose proof (history_closed l (state (exec (act a) c))) as Hl.
    rewrite I1, I2, A1, A2.
    destruct (act_closed a c) as [Hsame | [Hzero Hone]].
    + rewrite Hsame. destruct (closed c =? 0)%N; cbn; auto.
    + rewrite Hzero, Hone. cbn.
      destruct Hl as [Hl | [Hl _]]; [rewrite Hl, Hone; auto | congruence].
Qed.

(** X9. A consumer's subscriptions are its own and are released once.
    [newConsumer] subscribes once on each channel under the consumer's id
    and leaves the consumer open; whatever happens afterwards nothing
    subscribes again, every unsubscribe uses that same id, and at the end
    each channel has been unsubscribed once if the consumer is closed and
    not at all if it is still open. *)
Theorem subscriptions_are_released (params : consumerParams) (l : list Action) :
  let id := ConsumerId (params_internal params) in
  let c := fst (newConsumer params) in
  let c' := fst (run_actions l c) in
  let e := snd (newConsumer params) ++ snd (run_actions l c) in
  closed c = 0%N /\
  occurrences (channel_subscribes id) e = 1 /\
  occurrences (payloadChannel_subscribes id) e = 1 /\
  occurrences (channel_unsubscribes_key id) e = Nat.b2n (negb (closed c' =? 0)%N) /\
  occurrences (payloadChannel_unsubscribes_key id) e = Nat.b2n (negb (closed c' =? 0)%N) /\
  occurrences channel_unsubscribes e = Nat.b2n (negb (closed c' =? 0)%N) /\
  occurrences payloadChannel_unsubscribes e = Nat.b2n (negb (closed c' =? 0)%N).
Proof.
  cbn zeta.
  set (c := fst (newConsumer params)).
  assert (Hid : ConsumerId (internal c) = ConsumerId (params_internal params))
    by reflexivity.
  assert (Hopen : closed c = 0%N) by reflexivity.
  destruct (history_subscription_keys l c (ConsumerId (params_internal params)))
    as (S1 & S2 & S3 & S4).
  destruct (history_close_count l c) as (C1 & C2).
  rewrite Hopen in C1, C2. cbn [N.eqb andb] in C1, C2.
  rewrite Hid in S3, S4.
  rewrite !occurrences_app, S1, S2, S3, S4, C1, C2.
  cbn. rewrite !String.eqb_refl. split_all; reflexivity.
Qed.

End Lifecycle.

(** ** All three closing paths, interleaved *)

Ltac show_readonly :=
  repeat (cbn;
          match goal with
          | |- readonly (Ret _) => apply readonly_Ret
          | |- readonly (Atomic _ _) =>
              apply readonly_Atomic; [intros ?; reflexivity | intros ?]
          | |- readonly ?p =>
              match p with
              | context [match ?x with _ => _ end] => destruct x
              end
          end).

Section GuardedPool.
Context `{Ext : Externals}.
Variable K : Type.
Variable prog : K -> Prog (option error).
Hypothesis prog_guarded : forall k, guarded_by_closed (prog k).

Lemma won_by_first_step (c0 : Consumer) (calls : list K) (w : nat) (first : K) :
  closed c0 = 0%N ->
  calls !! w = Some first ->
  won_by prog c0 calls w first (step w (spawn c0 (map prog calls))).
Proof.
  intros Hopen Hw.
  destruct (prog_guarded first) as (f & rest & Hshape & Hwin & _ & _ & Hro).
  assert (Hth : threads (spawn c0 (map prog calls)) !! w = Some (Atomic f rest)).
  { cbn. rewrite list_lookup_fmap, Hw. cbn. rewrite Hshape. reflexivity. }
  rewrite (step_Atomic _ _ _ _ Hth). cbn. rewrite (Hwin c0 Hopen). cbn.
  assert (Hlt : w < length (map prog calls)).
  { rewrite length_map. eapply lookup_lt_Some; eauto. }
  constructor; cbn.
  - reflexivity.
  - rewrite length_insert, length_map. reflexivity.
  - exists (rest true). rewrite list_lookup_insert_eq by exact Hlt.
    rewrite Hshape. cbn. rewrite (Hwin c0 Hopen).
    destruct (exec (rest true) (set_closed 1 c0)) as [[a c2] e2]. cbn. auto.
  - intros i k Hne Hi. left.
    rewrite list_lookup_insert_ne by congruence.
    rewrite list_lookup_fmap, Hi. reflexivity.
Qed.

Lemma won_by_step (c0 : Consumer) (calls : list K) (w : nat) (first : K)
    (P : Pool (option error)) (i : nat) :
  won_by prog c0 calls w first P -> won_by prog c0 calls w first (step i P).
Proof.
  intros [Hsh Hlen (p & Hp & Hro & Hres & Htr) Hlosers].
  destruct (decide (i = w)) as [-> | Hne].
  - destruct Hro as [a | B f k Hf Hk].
    { rewrite step_idle by eauto.
      constructor; [assumption .. | | assumption].
      exists (Ret a). split_all; auto using readonly_Ret. }
    rewrite (step_Atomic _ _ _ _ Hp).
    assert (Hlt : w < length (threads P)) by (eapply lookup_lt_Some; eauto).
    cbn in Hres, Htr. specialize (Hf (shared P)).
    destruct (f (shared P)) as [[b c1] e1]. cbn in Hf. subst c1.
    destruct (exec (k b) (shared P)) as [[a c2] e2] eqn:Hex. cbn in Hres, Htr.
    constructor; cbn.
    + exact Hsh.
    + rewrite length_insert. exact Hlen.
    + exists (k b). rewrite list_lookup_insert_eq by exact Hlt.
      rewrite Hex. cbn. rewrite <- app_assoc. auto.
    + intros j kj Hj Hcall. rewrite list_lookup_insert_ne by congruence. eauto.
  - destruct (calls !! i) as [k |] eqn:Hcall.
    2:{ rewrite step_idle; [constructor; eauto 6 |]. left.
        apply lookup_ge_None. rewrite Hlen. apply lookup_ge_None. exact Hcall. }
    destruct (Hlosers i k Hne Hcall) as [Hi | Hi].
    2:{ rewrite step_idle by eauto. constructor; eauto 6. }
    destruct (prog_guarded k) as (f & rest & Hshape & _ & Hlose & Hnil & _).
    rewrite Hshape in Hi. rewrite (step_Atomic _ _ _ _ Hi).
    assert (Hclosed : closed (shared P) <> 0%N) by (rewrite Hsh; discriminate).
    rewrite (Hlose _ Hclosed). cbn. rewrite app_nil_r, Hnil.
    constructor; cbn.
    + exact Hsh.
    + rewrite length_insert. exact Hlen.
    + exists p. rewrite list_lookup_insert_ne by congruence. auto.
    + intros j kj Hj Hcj. destruct (decide (j = i)) as [-> | Hji].
      * right. apply list_lookup_insert_eq. eapply lookup_lt_Some; eauto.
      * rewrite list_lookup_insert_ne by congruence. eauto.
Qed.

Lemma won_by_run (c0 : Consumer) (calls : list K) (w : nat) (first : K)
    (s : list nat) (P : Pool (option error)) :
  won_by prog c0 calls w first P -> won_by prog c0 calls w first (run_schedule s P).
Proof.
  revert P. induction s as [| i s IH]; intros P HP; cbn.
  - exact HP.
  - apply IH, won_by_step, HP.
Qed.

(** Where a finished pool of guarded calls on an open consumer ends up. *)
Lemma guarded_pool_outcome (c : Consumer) (calls : list K) (s : list nat) :
  closed c = 0%N -> calls <> [] ->
  finished (run_schedule s (spawn c (map prog calls))) = true ->
  exists (w : nat) (first : K) (s1 s2 : list nat),
    s = s1 ++ w :: s2 /\ Forall (fun i => length calls <= i) s1 /\
    calls !! w = Some first /\
    trace (run_schedule s (spawn c (map prog calls))) = effects (exec (prog first) c) /\
    shared (run_schedule s (spawn c (map prog calls))) = set_closed 1 c /\
    threads (run_schedule s (spawn c (map prog calls))) !! w =
      Some (Ret (result (exec (prog first) c))) /\
    (forall i, i <> w -> i < length calls ->
       threads (run_schedule s (spawn c (map prog calls))) !! i = Some (Ret None)).
Proof.
  intros Hopen Hmany.
  set (P0 := spawn c (map prog calls)) in *. intros Hdone.
  destruct (schedule_first (length calls) s)
    as [Hnone | (s1 & w & s2 & -> & Hs1 & Hw)].
  { rewrite run_not_started in Hdone
      by (subst P0; cbn; rewrite length_map; exact Hnone).
    destruct calls as [| k calls]; [congruence |].
    destruct (prog_guarded k) as (f & rest & Hshape & _).
    subst P0. cbn in Hdone. rewrite Hshape in Hdone. discriminate. }
  destruct (lookup_lt_is_Some_2 calls w Hw) as [first Hfirst].
  assert (Hrun : run_schedule (s1 ++ w :: s2) P0 = run_schedule s2 (step w P0)).
  { rewrite run_schedule_app, (run_not_started s1 P0); [reflexivity |].
    subst P0. cbn. rewrite length_map. exact Hs1. }
  rewrite Hrun in *. clear Hrun.
  pose proof (won_by_run c calls w first s2 _
                (won_by_first_step c calls w first Hopen Hfirst))
    as [Hsh Hlen (p & Hp & Hro & Hres & Htr) Hlosers].
  fold P0 in Hsh, Hlen, Hp, Hres, Htr, Hlosers.
  set (P := run_schedule s2 (step w P0)) in *.
  destruct (finished_lookup P w p Hdone Hp) as [r ->].
  cbn in Hres, Htr. rewrite app_nil_r in Htr.
  exists w, first, s1, s2. split_all; auto.
  - rewrite Hp, Hres. reflexivity.
  - intros i Hne Hi.
    destruct (lookup_lt_is_Some_2 calls i Hi) as [k Hk].
    destruct (Hlosers i k Hne Hk) as [Hrun | Hret]; [| exact Hret].
    destruct (finished_lookup P i _ Hdone Hrun) as [r' Hr'].
    destruct (prog_guarded k) as (f & rest & Hshape & _).
    rewrite Hshape in Hr'. discriminate.
Qed.

End GuardedPool.

Section Closers.
Context `{Ext : Externals}.

Lemma closer_guarded (k : Closer) : guarded_by_closed (closer k).
Proof.
  destruct k as [rsp | | data]; do 2 eexists; (split; [reflexivity |]); split_all;
    try (intros c Hc; cbn; rewrite Hc; reflexivity);
    try (intros c Hc; cbn; destruct (closed c); [congruence | reflexivity]);
    try reflexivity; show_readonly.
Qed.

Lemma closer_open (c : Consumer) (k : Closer) :
  closed c = 0%N -> effects (exec (closer k) c) = closer_effects c k.
Proof.
  intros Hopen. destruct k as [rsp | | data]; cbn [closer closer_effects].
  - rewrite (Close_open c rsp Hopen). reflexivity.
  - rewrite exec_bind, (transportClosed_open c Hopen).
    cbn -[transportClosed_effects]. apply app_nil_r.
  - rewrite exec_bind, (producerclose_open c data Hopen).
    cbn -[producerclose_effects]. apply app_nil_r.
Qed.

(** X1. The consumer is torn down exactly once however its three closing
    paths race.  [Close] calls, [transportClosed] calls and "producerclose"
    notifications on one open consumer, interleaved in any way and all run
    to the end: the one whose compare-and-swap is scheduled first leaves its
    trace, as if it had run alone, and the others do nothing.  Each channel
    is unsubscribed once and the observer's "close" fires once; a request
    goes to the worker only when the winner is a [Close]. *)
Theorem closers_exactly_once (c : Consumer) (calls : list Closer) (s : list nat)
    (Hopen : closed c = 0%N) (Hsome : calls <> [])
    (Hdone : finished (run_schedule s (spawn c (map closer calls))) = true) :
  let P := run_schedule s (spawn c (map closer calls)) in
  exists (w : nat) (first : Closer) (s1 s2 : list nat),
    s = s1 ++ w :: s2 /\ Forall (fun i => length calls <= i) s1 /\
    calls !! w = Some first /\
    trace P = closer_effects c first /\
    shared P = set_closed 1 c /\
    (forall i, i <> w -> i < length calls -> threads P !! i = Some (Ret None)) /\
    occurrences channel_unsubscribes (trace P) = 1 /\
    occurrences payloadChannel_unsubscribes (trace P) = 1 /\
    occurrences (observer_emits "close") (trace P) = 1 /\
    occurrences is_request (trace P) =
      match first with Closer_Close _ => 1 | _ => 0 end.
Proof.
  cbn zeta.
  destruct (guarded_pool_outcome Closer closer closer_guarded c calls s Hopen Hsome Hdone)
    as (w & first & s1 & s2 & Hs & Hs1 & Hfirst & Htrace & Hsh & _ & Hothers).
  rewrite (closer_open c first Hopen) in Htrace.
  exists w, first, s1, s2. rewrite Htrace.
  split_all; auto;
    destruct first as [rsp | | data]; cbn [closer_effects];
    unfold Close_effects, transportClosed_effects, producerclose_effects;
    case_slots; case_all; reflexivity.
Qed.

(** X2. The closed check of the "rtp" listener and its emission are two
    steps.  When a [Close] on an open consumer runs between them, the "rtp"
    event and the [onRtp] callback come after the whole close sequence. *)
Theorem rtp_can_follow_close (c : Consumer) (rsp : workerResponse)
    (data payload : list Byte.byte) (Hopen : closed c = 0%N) :
  exists s : list nat,
    let P := run_schedule s
               (spawn c [Close rsp;
                         payloadChannel_listener "rtp" data payload ;; Ret None]) in
    finished P = true /\
    shared P = set_closed 1 c /\
    trace P = Close_effects c (Response_Err rsp)
              ++ SafeEmit Public "rtp" [ArgBytes payload]
                 :: handler_call (onRtp c) [ArgBytes payload].
Proof.
  exists [1; 0; 0; 0; 0; 0; 0; 0; 0; 0; 0; 0; 0; 1; 1; 1].
  destruct c as [i d a p cl pp pr sc pl cu oc opc otc op ore opp opr osc olc otr ortp].
  cbn in Hopen. subst cl.
  let p := eval cbn in (Close rsp) in change (Close rsp) with p.
  destruct (Response_Err rsp), oc as [h |], ortp as [h' |];
    vm_compute; split_all; reflexivity.
Qed.

(** X22. What [Close] does locally does not depend on the worker's answer.
    On an open consumer two different responses lead to the same struct and
    to the same trace, up to the one error line logged for a failed
    response; [Close] returns the error of the response it got. *)
Theorem Close_teardown_ignores_the_answer (c : Consumer) (rsp rsp' : workerResponse)
    (Hopen : closed c = 0%N) :
  let r := exec (Close rsp) c in
  let r' := exec (Close rsp') c in
  let not_error_log (e : Effect) :=
    match e with Log_Error _ _ _ => false | _ => true end in
  state r = state r' /\
  List.filter not_error_log (effects r) = List.filter not_error_log (effects r') /\
  List.filter is_emission (effects r) = List.filter is_emission (effects r') /\
  result r = Response_Err rsp /\ result r' = Response_Err rsp'.
Proof.
  cbn zeta. rewrite (Close_open c rsp Hopen), (Close_open c rsp' Hopen).
  unfold Close_effects.
  destruct (Response_Err rsp), (Response_Err rsp'); case_slots; cbn;
    split_all; reflexivity.
Qed.

End Closers.

(** ** More concrete runs *)

(** [closers_exactly_once]: a "producerclose" notification, a [Close] and a
    [transportClosed] racing; the notification gets to the flag first. *)
Lemma closers_exactly_once_witness :
  closed (Sample.consumer false false) = 0%N /\
  [Closer_Close Sample.ok; Closer_producerclose []; Closer_transportClosed] <> [] /\
  finished (run_schedule [1; 0; 2; 1; 1; 1; 0; 1; 1; 1; 1; 1; 1; 1]
              (spawn (Sample.consumer false false)
                 (map closer [Closer_Close Sample.ok; Closer_producerclose [];
                              Closer_transportClosed]))) = true /\
  occurrences is_request
    (trace (run_schedule [1; 0; 2; 1; 1; 1; 0; 1; 1; 1; 1; 1; 1; 1]
              (spawn (Sample.consumer false false)
                 (map closer [Closer_Close Sample.ok; Closer_producerclose [];
                              Closer_transportClosed])))) < 2.
Proof.
  assert (Hsome : [@Closer_Close Sample.externals Sample.ok;
                   Closer_producerclose []; Closer_transportClosed] <> [])
    by discriminate.
  destruct (@closers_exactly_once Sample.externals (Sample.consumer false false) _
              [1; 0; 2; 1; 1; 1; 0; 1; 1; 1; 1; 1; 1; 1] eq_refl Hsome eq_refl)
    as (w & first & s1 & s2 & _ & _ & _ & _ & _ & _ & _ & _ & _ & Hreq).
  split_all; [reflexivity | exact Hsome | reflexivity |].
  rewrite Hreq. destruct first; lia.
Defined.

(** [rtp_can_follow_close] on a fresh consumer. *)
Lemma rtp_can_follow_close_witness :
  closed (Sample.consumer false false) = 0%N /\
  exists s : list nat,
    finished (run_schedule s
                (spawn (Sample.consumer false false)
                   [Close Sample.ok;
                    payloadChannel_listener "rtp" [] [Byte.x80] ;; Ret None])) = true.
Proof.
  split; [reflexivity |].
  destruct (rtp_can_follow_close (Sample.consumer false false) Sample.ok []
              [Byte.x80] eq_refl) as (s & Hdone & _).
  exists s. exact Hdone.
Defined.


(** [fields_have_one_owner] on two notifications, and on two calls. *)
Lemma fields_have_one_owner_witness :
  forallb from_worker
    [Do_notification "producerpause" []; Do_notification "score" Sample.score_data]
    = true /\
  paused (fst (run_actions
                 [Do_notification "producerpause" [];
                  Do_notification "score" Sample.score_data]
                 (Sample.consumer false false))) = false /\
  forallb (fun a => negb (from_worker a))
    [@Do_Pause Sample.externals Sample.ok; @Do_SetPriority Sample.externals 3 Sample.ok] = true /\
  producerPaused (fst (run_actions [@Do_Pause Sample.externals Sample.ok; @Do_SetPriority Sample.externals 3 Sample.ok]
                         (Sample.consumer false false))) = false.
Proof.
  destruct (fields_have_one_owner
              [Do_notification "producerpause" [];
               Do_notification "score" Sample.score_data]
              (Sample.consumer false false)) as [Hworker _].
  destruct (fields_have_one_owner [@Do_Pause Sample.externals Sample.ok; @Do_SetPriority Sample.externals 3 Sample.ok]
              (Sample.consumer false false)) as [_ Happ].
  split_all; [reflexivity | | reflexivity |].
  - exact (proj1 (Hworker eq_refl)).
  - exact (proj1 (Happ eq_refl)).
Defined.

(** [closed_flag_is_ignored] on a "producerpause" notification. *)
Lemma closed_flag_is_ignored_witness :
  closes (Do_notification "producerpause" []) = false /\
  producerPaused
    (state (exec (act (Do_notification "producerpause" []))
              (set_closed 1 (Sample.consumer false false)))) = true.
Proof.
  split; [reflexivity |].
  rewrite (closed_flag_is_ignored (Do_notification "producerpause" [])
             (Sample.consumer false false) 1 eq_refl).
  - reflexivity.
  - intros d p. discriminate.
Defined.

(** [producerclose_closes_without_request] on a fresh consumer. *)
Lemma producerclose_closes_without_request_witness :
  closed (Sample.consumer false false) = 0%N /\
  result (exec Closed
            (state (exec (channel_listener "producerclose" [])
                         (Sample.consumer false false)))) = true.
Proof.
  split; [reflexivity |].
  destruct (producerclose_closes_without_request (Sample.consumer false false) [])
    as (_ & Hopen & _).
  exact (proj1 (proj2 (Hopen eq_refl))).
Defined.

(** [malformed_notification_is_skipped] on an empty "score" payload. *)
Lemma malformed_notification_is_skipped_witness :
  json_Unmarshal_Score [] = inl "unexpected end of input" /\
  state (exec (channel_listener "score" []) (Sample.consumer false false))
    = Sample.consumer false false.
Proof.
  split; [reflexivity |].
  apply (malformed_notification_is_skipped (Sample.consumer false false) "score" []
           "unexpected end of input").
  left. split; reflexivity.
Defined.

(** [layerschange_replaces_currentLayers] on layers 1/2, then on null. *)
Lemma layerschange_replaces_currentLayers_witness :
  json_Unmarshal_Layers [Byte.x01; Byte.x02] =
    inr (Some {| SpatialLayer := 1; TemporalLayer := 2 |}) /\
  result (exec CurrentLayers
            (state (exec (channel_listener "layerschange" [Byte.x01; Byte.x02])
                         (Sample.consumer false false)))) =
    Some {| SpatialLayer := 1; TemporalLayer := 2 |} /\
  json_Unmarshal_Layers [] = inr None /\
  result (exec CurrentLayers
            (state (exec (channel_listener "layerschange" [])
                         (state (exec (channel_listener "layerschange"
                                         [Byte.x01; Byte.x02])
                                      (Sample.consumer false false)))))) = None.
Proof.
  split_all; [reflexivity | | reflexivity |].
  - apply (layerschange_replaces_currentLayers (Sample.consumer false false)
             [Byte.x01; Byte.x02] _ eq_refl).
  - apply (layerschange_replaces_currentLayers
             (state (exec (channel_listener "layerschange" [Byte.x01; Byte.x02])
                          (Sample.consumer false false)))
             [] None eq_refl).
Defined.

(** [payload_listener_spec] on an "rtp" packet for a fresh consumer. *)
Lemma payload_listener_spec_witness :
  closed (Sample.consumer false false) = 0%N /\
  effects (exec (payloadChannel_listener "rtp" [] [Byte.x80])
             (Sample.consumer false false)) =
    [SafeEmit Public "rtp" [ArgBytes [Byte.x80]]].
Proof.
  split; [reflexivity |].
  destruct (@payload_listener_spec Sample.externals (Sample.consumer false false)
              "rtp" [] [Byte.x80]) as (_ & Hrtp & _).
  exact (Hrtp eq_refl eq_refl).
Defined.

(** [Pause_Resume_round_trip] on a fresh consumer. *)
Lemma Pause_Resume_round_trip_witness :
  Response_Err Sample.ok = None /\
  paused (Sample.consumer false false) = false /\
  state (exec (Pause Sample.ok ;; Resume Sample.ok) (Sample.consumer false false))
    = Sample.consumer false false.
Proof.
  split_all; [reflexivity | reflexivity |].
  destruct (Pause_Resume_round_trip (Sample.consumer false false) Sample.ok Sample.ok
              eq_refl eq_refl) as [Htrip _].
  exact (proj1 (Htrip eq_refl)).
Defined.

(** [producerpause_producerresume_round_trip] on a locally paused consumer. *)
Lemma producerpause_producerresume_round_trip_witness :
  producerPaused (Sample.consumer true false) = false /\
  state (exec (channel_listener "producerpause" [] ;;
               channel_listener "producerresume" [])
              (Sample.consumer true false)) = Sample.consumer true false /\
  occurrences (observer_emits "pause")
    (effects (exec (channel_listener "producerpause" [] ;;
                    channel_listener "producerresume" [])
                   (Sample.consumer true false))) = 0.
Proof.
  destruct (producerpause_producerresume_round_trip (Sample.consumer true false)
              [] [] eq_refl) as (Hstate & _ & _ & Hpause & _).
  split_all; [reflexivity | exact Hstate | exact Hpause].
Defined.

(** [Close_teardown_ignores_the_answer] on a fresh consumer. *)
Lemma Close_teardown_ignores_the_answer_witness :
  closed (Sample.consumer false false) = 0%N /\
  state (exec (Close Sample.ok) (Sample.consumer false false)) =
  state (exec (Close (Sample.failed "worker closed")) (Sample.consumer false false)).
Proof.
  split; [reflexivity |].
  apply (Close_teardown_ignores_the_answer (Sample.consumer false false)
           Sample.ok (Sample.failed "worker closed") eq_refl).
Defined.
